(** * Persona pipeline: a shallow embedding of the backend scoring service

    The development follows these source modules of the backend:

    - [models/Persona]            the in-memory [PersonaStore];
    - [services/personaService]   [buildPersona], [computeTraitScores],
                                  [extractPainPoints], [extractQuotes],
                                  [generatePersonaName], [setTestRuns];
    - [routes/tests]              the run routes [logTestRunEvent],
                                  [updateTestRunTranscript],
                                  [handleTestRunAudioUpload],
                                  [finalizeTestRun], and the routes that
                                  write to the test instance store;
    - [routes/personas]           the three handlers that read personas;
    - [models/TestInstance]       the in-memory [TestInstanceStore];
    - [models/TestTemplate]       the template lookup of the test routes.

    Conventions of the embedding.

    - A JavaScript string is a [string] whose characters are the code units
      U+0000 .. U+00FF; [toLowerCase] and [trim] are written out for that
      range.
    - A JavaScript number is modelled by exact arithmetic: trait scores are
      rationals ([Q]) built from the literals 0.2, 0.3 and 0.4, counters and
      millisecond timestamps are integers.
    - A JavaScript [Map] is an object with two separate parts: its entries
      (what [get]/[set] see) and its own properties (what [Object.assign]
      sees).
    - [Math.random()] and [new Date()] are inputs of the functions that call
      them. *)

From Stdlib Require Import ZArith QArith Qminmax Qround Lqa Lia List Bool Ascii String.
From Stdlib Require Import Sorted DecimalString DecimalNat DecimalFacts.
From stdpp Require Import base gmap strings list sorting.

Local Open Scope string_scope.

(** ** JavaScript strings *)

Module JsString.

Definition isUpperUnit (n : nat) : bool :=
  ((65 <=? n)%nat && (n <=? 90)%nat)
  || ((192 <=? n)%nat && (n <=? 222)%nat && negb (n =? 215)%nat).

(** [String.prototype.toLowerCase] on one code unit below U+0100. *)
Definition lowerUnit (c : ascii) : ascii :=
  let n := nat_of_ascii c in
  if isUpperUnit n then ascii_of_nat (n + 32) else c.

Fixpoint toLowerCase (s : string) : string :=
  match s with
  | EmptyString => EmptyString
  | String c r => String (lowerUnit c) (toLowerCase r)
  end.

(** [String.prototype.includes]. *)
Fixpoint includes (s needle : string) : bool :=
  String.prefix needle s
  || match s with
     | EmptyString => false
     | String _ r => includes r needle
     end.

(** White space and line terminators below U+0100, as [trim] sees them. *)
Definition isWhite (c : ascii) : bool :=
  let n := nat_of_ascii c in
  ((9 <=? n)%nat && (n <=? 13)%nat) || (n =? 32)%nat || (n =? 160)%nat.

Fixpoint trimStart (s : string) : string :=
  match s with
  | EmptyString => EmptyString
  | String c r => if isWhite c then trimStart r else s
  end.

Fixpoint trimEnd (s : string) : string :=
  match s with
  | EmptyString => EmptyString
  | String c r =>
      match trimEnd r with
      | EmptyString => if isWhite c then EmptyString else String c EmptyString
      | r' => String c r'
      end
  end.

Definition trim (s : string) : string := trimEnd (trimStart s).

(** The character class [[.!?]]. *)
Definition isSentenceEnd (c : ascii) : bool :=
  let n := nat_of_ascii c in
  (n =? 46)%nat || (n =? 33)%nat || (n =? 63)%nat.

(** [s.split(/[.!?]+/)]: the fragments between maximal runs of sentence
    punctuation; a run at either end of the string leaves an empty
    fragment there, and the empty string splits into one empty fragment. *)
Fixpoint splitGo (cur : string) (inRun : bool) (s : string) : list string :=
  match s with
  | EmptyString => [cur]
  | String c r =>
      if isSentenceEnd c
      then (if inRun then splitGo EmptyString true r
            else cur :: splitGo EmptyString true r)
      else splitGo (cur ++ String c EmptyString) false r
  end.

Definition splitSentences (s : string) : list string :=
  splitGo EmptyString false s.

(** The two quote characters, double (U+0022) and single (U+0027). *)
Definition isQuote (c : ascii) : bool :=
  let n := nat_of_ascii c in
  (n =? 34)%nat || (n =? 39)%nat.

Definition dropLeadingQuote (s : string) : string :=
  match s with
  | String c r => if isQuote c then r else s
  | EmptyString => EmptyString
  end.

Fixpoint dropTrailingQuote (s : string) : string :=
  match s with
  | EmptyString => EmptyString
  | String c EmptyString => if isQuote c then EmptyString else s
  | String c r => String c (dropTrailingQuote r)
  end.

(** The global [replace] of a quote anchored at the start or at the end by
    the empty string: it first consumes a quote at the start, then a quote
    at the end of what is left. *)
Definition stripQuotes (s : string) : string :=
  dropTrailingQuote (dropLeadingQuote s).

(** [n.toString()] for a non-negative integer. *)
Definition natToString (n : nat) : string :=
  NilZero.string_of_uint (Nat.to_uint n).

End JsString.

(** ** JavaScript values, objects, arrays and maps *)

Module Js.

(** The values a JSON request body can put into an event. *)
Inductive JsVal : Type :=
| JUndefined
| JNull
| JBool (b : bool)
| JNum (n : Z)
| JStr (s : string)
| JObj (fields : list (string * string)).

(** A plain object: its own properties. A missing property reads as
    [undefined]. *)
Definition getProp (o : gmap string JsVal) (k : string) : JsVal :=
  default JUndefined (o !! k).

Definition truthy (v : JsVal) : bool :=
  match v with
  | JUndefined | JNull => false
  | JBool b => b
  | JNum n => negb (n =? 0)%Z
  | JStr s => negb (String.eqb s "")
  | JObj _ => true
  end.

Definition zToString (n : Z) : string :=
  match n with
  | Z0 => "0"
  | Zpos p => JsString.natToString (Pos.to_nat p)
  | Zneg p => "-" ++ JsString.natToString (Pos.to_nat p)
  end.

(** The property key a value turns into when it indexes an object. *)
Definition toPropertyKey (v : JsVal) : string :=
  match v with
  | JUndefined => "undefined"
  | JNull => "null"
  | JBool true => "true"
  | JBool false => "false"
  | JNum n => zToString n
  | JStr s => s
  | JObj _ => "[object Object]"
  end.

(** Property names every plain object inherits from [Object.prototype].
    Reading one of them on a fresh object yields a function (or the
    prototype), never [undefined]. *)
Definition objectPrototypeKeys : list string :=
  [ "constructor"; "__defineGetter__"; "__defineSetter__"; "hasOwnProperty";
    "__lookupGetter__"; "__lookupSetter__"; "isPrototypeOf";
    "propertyIsEnumerable"; "toString"; "valueOf"; "__proto__";
    "toLocaleString" ].

Definition isObjectPrototypeKey (k : string) : bool :=
  existsb (String.eqb k) objectPrototypeKeys.

(** A [Map] object. [get] and [set] work on [entries]; [Object.assign]
    copies [ownProps], the own enumerable properties, and nothing else.
    Own properties hold data values. *)
Record JsMap (V : Type) : Type := mkJsMap {
  entries : gmap string V;
  ownProps : gmap string JsVal
}.
Arguments mkJsMap {V} _ _.
Arguments entries {V} _.
Arguments ownProps {V} _.

Definition newMap {V : Type} : JsMap V := mkJsMap ∅ ∅.

Definition mapGet {V : Type} (m : JsMap V) (k : string) : option V :=
  entries m !! k.

Definition mapSet {V : Type} (m : JsMap V) (k : string) (v : V) : JsMap V :=
  mkJsMap (<[k := v]> (entries m)) (ownProps m).

(** [Object.assign(target, source)] on two [Map] objects. *)
Definition objectAssign {V : Type} (target source : JsMap V) : JsMap V :=
  mkJsMap (entries target) (ownProps source ∪ ownProps target).

Section Sort.
Context {A : Type}.
(** [after x y]: the comparator applied to [(x, y)] is positive, so [y]
    has to come first. *)
Variable after : A -> A -> bool.

Fixpoint insertSorted (x : A) (l : list A) : list A :=
  match l with
  | [] => [x]
  | y :: r => if after x y then y :: insertSorted x r else x :: l
  end.

(** [Array.prototype.sort] with a comparator: a stable sort, so elements
    the comparator does not separate keep their order. *)
Definition sortBy (l : list A) : list A :=
  foldr insertSorted [] l.
End Sort.

(** [Array.prototype.find]. *)
Definition find {A : Type} (f : A -> bool) (l : list A) : option A :=
  List.find f l.

(** [arr.slice(0, n)]. *)
Definition slice0 {A : Type} (n : nat) (l : list A) : list A := firstn n l.

End Js.

(** ** models/Persona: the in-memory persona store *)

Module PersonaModel.

Record Persona : Type := mkPersona {
  id : string;
  userId : string;
  runId : string;
  name : string;
  traitScores : list (string * Q);
  painPoints : list string;
  quotes : list string;
  createdAt : Z;
  updatedAt : Z
}.

(** The argument of [create]: a persona without [id], [createdAt] and
    [updatedAt]. *)
Record PersonaData : Type := mkPersonaData {
  d_userId : string;
  d_runId : string;
  d_name : string;
  d_traitScores : list (string * Q);
  d_painPoints : list string;
  d_quotes : list string
}.

(** The argument of [update]: any subset of the fields except [id] and
    [createdAt]. *)
Record PersonaUpdates : Type := mkPersonaUpdates {
  u_userId : option string;
  u_runId : option string;
  u_name : option string;
  u_traitScores : option (list (string * Q));
  u_painPoints : option (list string);
  u_quotes : option (list string)
}.

(** The two private fields of the class. *)
Record PersonaStore : Type := mkStore {
  personas : list Persona;
  nextId : nat
}.

Definition emptyStore : PersonaStore := mkStore [] 1.

(** [create]; [now1] and [now2] are the two clock readings it takes. *)
Definition create (st : PersonaStore) (data : PersonaData) (now1 now2 : Z)
  : PersonaStore * Persona :=
  let persona :=
    mkPersona (JsString.natToString (nextId st))
              (d_userId data) (d_runId data) (d_name data)
              (d_traitScores data) (d_painPoints data) (d_quotes data)
              now1 now2 in
  (mkStore (personas st ++ [persona]) (S (nextId st)), persona).

Definition getById (st : PersonaStore) (i : string) : option Persona :=
  Js.find (fun p => String.eqb (id p) i) (personas st).

(** The comparator of both per-user lookups is
    [b.createdAt - a.createdAt]. *)
Definition newerFirst (a b : Persona) : bool :=
  (0 <? createdAt b - createdAt a)%Z.

Definition getByUserId (st : PersonaStore) (u : string) : list Persona :=
  Js.sortBy newerFirst
    (List.filter (fun p => String.eqb (userId p) u) (personas st)).

Definition getLatestByUserId (st : PersonaStore) (u : string)
  : option Persona :=
  head (Js.sortBy newerFirst
          (List.filter (fun p => String.eqb (userId p) u) (personas st))).

Definition getByRunId (st : PersonaStore) (r : string) : option Persona :=
  Js.find (fun p => String.eqb (runId p) r) (personas st).

(** [Object.assign(persona, updates, { updatedAt: new Date() })]. *)
Definition applyUpdates (p : Persona) (u : PersonaUpdates) (now : Z)
  : Persona :=
  mkPersona (id p)
            (default (userId p) (u_userId u))
            (default (runId p) (u_runId u))
            (default (name p) (u_name u))
            (default (traitScores p) (u_traitScores u))
            (default (painPoints p) (u_painPoints u))
            (default (quotes p) (u_quotes u))
            (createdAt p)
            now.

(** The first persona with the given id is changed in place. *)
Fixpoint updateFirst (i : string) (u : PersonaUpdates) (now : Z)
                     (l : list Persona) : list Persona :=
  match l with
  | [] => []
  | p :: r =>
      if String.eqb (id p) i then applyUpdates p u now :: r
      else p :: updateFirst i u now r
  end.

Definition update (st : PersonaStore) (i : string) (u : PersonaUpdates)
                  (now : Z) : PersonaStore * option Persona :=
  match Js.find (fun p => String.eqb (id p) i) (personas st) with
  | None => (st, None)
  | Some p =>
      (mkStore (updateFirst i u now (personas st)) (nextId st),
       Some (applyUpdates p u now))
  end.

(** [findIndex] followed by [splice(index, 1)]. *)
Fixpoint removeFirst (i : string) (l : list Persona) : list Persona :=
  match l with
  | [] => []
  | p :: r => if String.eqb (id p) i then r else p :: removeFirst i r
  end.

Definition delete (st : PersonaStore) (i : string) : PersonaStore * bool :=
  match Js.find (fun p => String.eqb (id p) i) (personas st) with
  | None => (st, false)
  | Some _ => (mkStore (removeFirst i (personas st)) (nextId st), true)
  end.





End PersonaModel.

(** ** The run objects kept by routes/tests *)

Module Run.

Record SurveyResponse : Type := mkSurvey {
  question : string;
  answer : string
}.

(** An uploaded audio chunk; the bytes of its buffer are left out. *)
Record AudioChunk : Type := mkChunk {
  chunkTimestamp : Z;
  chunkSize : nat
}.

(** A run object as the routes create it. The routes never write a
    [surveyResponses] property; [finalized] and [endTime] appear when the
    run is finalized. *)
Record TestRun : Type := mkRun {
  id : string;
  userId : string;
  events : list (gmap string Js.JsVal);
  transcript : string;
  audioChunks : list AudioChunk;
  surveyResponses : option (list SurveyResponse);
  finalized : bool;
  endTime : option Z;
  createdAt : Z;
  updatedAt : Z
}.

End Run.

(** ** services/personaService *)

Module PersonaService.

Import JsString.
Local Open Scope Q_scope.

(** What a rejected promise carries: the message of the [Error]. *)
Inductive Outcome (A : Type) : Type :=
| Resolved (a : A)
| Rejected (message : string).
Arguments Resolved {A} _.
Arguments Rejected {A} _.

(** The message of the error raised for a missing run. *)
Definition notFound (runId : string) : string :=
  ("Test run " ++ runId ++ " not found")%string.

Definition traitNames : list string :=
  [ "Analytical"; "Creative"; "Social"; "Practical";
    "Confident"; "Cautious"; "Efficient"; "Thorough" ]%string.

(** [scores[k]]; a missing key reads as [undefined], which no rule below
    ever meets. *)
Fixpoint score (scores : list (string * Q)) (k : string) : Q :=
  match scores with
  | [] => 0
  | (k', v) :: r => if String.eqb k' k then v else score r k
  end.

(** [scores[k] += d] on an existing key. *)
Fixpoint addScore (k : string) (d : Q) (scores : list (string * Q))
  : list (string * Q) :=
  match scores with
  | [] => []
  | (k', v) :: r =>
      if String.eqb k' k then (k', v + d) :: r
      else (k', v) :: addScore k d r
  end.

(** One step of the [reduce] that counts events by type:
    [acc[type] = (acc[type] || 0) + 1]. On a key inherited from
    [Object.prototype] the sum is a string concatenation, so that key
    never holds a number; such keys are left out of the counts. *)
Definition countStep (acc : gmap string nat) (type : Js.JsVal)
  : gmap string nat :=
  let k := Js.toPropertyKey type in
  if Js.isObjectPrototypeKey k then acc
  else <[k := S (default 0%nat (acc !! k))]> acc.

Definition eventCounts (events : list (gmap string Js.JsVal))
  : gmap string nat :=
  fold_left countStep (List.map (fun e => Js.getProp e "type") events) ∅.

(** [eventCounts[k] > n]; [undefined > n] is false. *)
Definition countAbove (counts : gmap string nat) (k : string) (n : nat)
  : bool :=
  match counts !! k with
  | Some c => (n <? c)%nat
  | None => false
  end.

Definition surveyStep (scores : list (string * Q)) (r : Run.SurveyResponse)
  : list (string * Q) :=
  if negb (String.eqb (Run.question r) "")
     && negb (String.eqb (Run.answer r) "")
  then
    let question := toLowerCase (Run.question r) in
    let answer := toLowerCase (Run.answer r) in
    let scores :=
      if includes question "confidence" && includes answer "high"
      then addScore "Confident" (2 # 10) scores else scores in
    if includes question "preference" && includes answer "creative"
    then addScore "Creative" (2 # 10) scores else scores
  else scores.

Definition clamp (x : Q) : Q := Qmin (Qmax x 0) 1.

Definition computeTraitScores (events : list (gmap string Js.JsVal))
    (transcript : string) (surveyResponses : list Run.SurveyResponse)
  : list (string * Q) :=
  let scores : list (string * Q) :=
    [ ("Analytical", 0); ("Creative", 0); ("Social", 0); ("Practical", 0);
      ("Confident", 0); ("Cautious", 0); ("Efficient", 0); ("Thorough", 0) ]%string in
  let counts := eventCounts events in
  let scores := if countAbove counts "click" 10
                then addScore "Practical" (3 # 10) scores else scores in
  let scores := if countAbove counts "hover" 5
                then addScore "Cautious" (2 # 10) scores else scores in
  let scores := if countAbove counts "scroll" 3
                then addScore "Thorough" (2 # 10) scores else scores in
  let scores := if countAbove counts "keypress" 20
                then addScore "Efficient" (3 # 10) scores else scores in
  let transcriptLower := toLowerCase transcript in
  let scores := if includes transcriptLower "think"
                   || includes transcriptLower "analyze"
                then addScore "Analytical" (4 # 10) scores else scores in
  let scores := if includes transcriptLower "creative"
                   || includes transcriptLower "imagine"
                then addScore "Creative" (4 # 10) scores else scores in
  let scores := if includes transcriptLower "people"
                   || includes transcriptLower "team"
                then addScore "Social" (4 # 10) scores else scores in
  let scores := if includes transcriptLower "confident"
                   || includes transcriptLower "sure"
                then addScore "Confident" (3 # 10) scores else scores in
  let scores := fold_left surveyStep surveyResponses scores in
  List.map (fun kv => (fst kv, clamp (snd kv))) scores.

Definition painKeywords : list string :=
  [ "frustrated"; "confused"; "difficult"; "hard"; "problem"; "issue";
    "doesn't work"; "broken"; "slow"; "complicated"; "unclear";
    "annoying"; "bothersome"; "trouble"; "struggle"; "challenge" ]%string.

(** The body of the [forEach] of [extractPainPoints]. *)
Definition painStep (painPoints : list string) (sentence : string)
  : list string :=
  let lowerSentence := toLowerCase sentence in
  if existsb (fun keyword => includes lowerSentence keyword) painKeywords
  then
    let cleanSentence := stripQuotes (trim sentence) in
    if (10 <? String.length cleanSentence)%nat
       && (String.length cleanSentence <? 200)%nat
    then painPoints ++ [cleanSentence]
    else painPoints
  else painPoints.

Definition extractPainPoints (transcript : string) : list string :=
  let sentences :=
    List.filter (fun s => (10 <? String.length (trim s))%nat)
                (splitSentences transcript) in
  Js.slice0 3 (fold_left painStep sentences []).

(** The body of the [forEach] of [extractQuotes]. *)
Definition quoteStep (quotes : list string) (sentence : string)
  : list string :=
  let cleanSentence := stripQuotes (trim sentence) in
  if (20 <? String.length cleanSentence)%nat
     && (String.length cleanSentence <? 150)%nat
  then
    let lowerSentence := toLowerCase cleanSentence in
    if includes lowerSentence "i " || includes lowerSentence "me "
       || includes lowerSentence "my " || includes lowerSentence "think"
       || includes lowerSentence "feel" || includes lowerSentence "like"
       || includes lowerSentence "prefer"
    then quotes ++ [cleanSentence]
    else quotes
  else quotes.

Definition extractQuotes (transcript : string) : list string :=
  let sentences :=
    List.filter (fun s => (15 <? String.length (trim s))%nat)
                (splitSentences transcript) in
  Js.slice0 5 (fold_left quoteStep sentences []).

Definition names : list string :=
  [ "Alex"; "Jordan"; "Casey"; "Taylor"; "Morgan"; "Riley"; "Quinn";
    "Avery"; "Sam"; "Drew"; "Blake"; "Cameron"; "Jamie"; "Parker";
    "Reese"; "Dakota" ]%string.

(** The comparator [b - a] on the scores of two entries. *)
Definition higherFirst (x y : string * Q) : bool :=
  match 0 ?= snd y - snd x with
  | Lt => true
  | _ => false
  end.

(** [names[Math.floor(random * names.length)]] inside a template string;
    an index outside the array would print as [undefined]. *)
Definition pickName (random : Q) : string :=
  let i := Qfloor (random * inject_Z (Z.of_nat (List.length names))) in
  if (i <? 0)%Z then "undefined"%string
  else default "undefined"%string (names !! Z.to_nat i).

(** [random] is the value of [Math.random()]. *)
Definition generatePersonaName (traitScores : list (string * Q))
    (random : Q) : string :=
  let dominantTraits :=
    List.map fst (Js.slice0 2 (Js.sortBy higherFirst traitScores)) in
  let randomName := pickName random in
  let traitDescriptor :=
    match head dominantTraits with
    | Some t => if String.eqb (toLowerCase t) "" then "balanced"%string
                else toLowerCase t
    | None => "balanced"%string
    end in
  (randomName ++ " the " ++ traitDescriptor)%string.

Record PersonaResult : Type := mkResult {
  personaId : string;
  persona : PersonaModel.Persona
}.

(** The inputs [buildPersona] takes from its environment: one
    [Math.random()] and the two clock readings of [create]. *)
Record Env : Type := mkEnv {
  random : Q;
  now1 : Z;
  now2 : Z
}.

(** [testRuns] is the module's own map, [store] the persona store. The
    defaults of the destructuring for [events] and [transcript] never
    apply to a run object, which always has both. *)
Definition buildPersona (testRuns : Js.JsMap Run.TestRun)
    (store : PersonaModel.PersonaStore) (env : Env) (runId : string)
  : PersonaModel.PersonaStore * Outcome PersonaResult :=
  match Js.mapGet testRuns runId with
  | None => (store, Rejected (notFound runId))
  | Some testRun =>
      let events := Run.events testRun in
      let transcript := Run.transcript testRun in
      let surveyResponses := default [] (Run.surveyResponses testRun) in
      let userId := Run.userId testRun in
      let traitScores :=
        computeTraitScores events transcript surveyResponses in
      let painPoints := extractPainPoints transcript in
      let quotes := extractQuotes transcript in
      let name := generatePersonaName traitScores (random env) in
      let '(store', persona) :=
        PersonaModel.create store
          (PersonaModel.mkPersonaData userId runId name traitScores
                                      painPoints quotes)
          (now1 env) (now2 env) in
      (store', Resolved (mkResult (PersonaModel.id persona) persona))
  end.

(** [setTestRuns(runs)]: [Object.assign(testRuns, runs)]. *)
Definition setTestRuns (testRuns runs : Js.JsMap Run.TestRun)
  : Js.JsMap Run.TestRun :=
  Js.objectAssign testRuns runs.

End PersonaService.

(** ** routes/tests: the run routes *)

Module TestsRoutes.

(** The module-level state of the backend: the [testRuns] map of
    routes/tests, the separate [testRuns] map of services/personaService,
    and the singleton persona store. *)
Record Backend : Type := mkBackend {
  routeRuns : Js.JsMap Run.TestRun;
  serviceRuns : Js.JsMap Run.TestRun;
  personaStore : PersonaModel.PersonaStore
}.

Definition initial : Backend :=
  mkBackend Js.newMap Js.newMap PersonaModel.emptyStore.

(** The status code and the [personaId] field of a JSON response. *)
Record Response : Type := mkResponse {
  status : nat;
  success : bool;
  personaId : option string
}.

Definition ok : Response := mkResponse 200 true None.
Definition failure (code : nat) : Response := mkResponse code false None.

(** The run object the routes create for a run id they have not seen. *)
Definition freshRun (runId userId : string) (now : Z) : Run.TestRun :=
  Run.mkRun runId userId [] "" [] None false None now now.

(** The event object pushed onto [testRun.events]. *)
Definition eventObject (eventName : string) (timestamp : Z)
    (data : Js.JsVal) : gmap string Js.JsVal :=
  {[ "name" := Js.JStr eventName;
     "timestamp" := Js.JNum timestamp;
     "data" := data ]}.

Definition getOrCreate (b : Backend) (runId userId : string) (now : Z)
  : Run.TestRun :=
  default (freshRun runId userId now) (Js.mapGet (routeRuns b) runId).

(** POST /api/tests/runs/event. [timestamp] and [data] are the optional
    fields of the body; [now] is the clock. *)
Definition logTestRunEvent (b : Backend) (userId runId eventName : string)
    (timestamp : option Z) (data : Js.JsVal) (now : Z)
  : Backend * Response :=
  if String.eqb runId "" || String.eqb eventName "" then (b, failure 400)
  else
    let testRun := getOrCreate b runId userId now in
    let ts := match timestamp with
              | Some t => if (t =? 0)%Z then now else t
              | None => now
              end in
    let d := if Js.truthy data then data else Js.JObj [] in
    let testRun' :=
      Run.mkRun (Run.id testRun) (Run.userId testRun)
                (Run.events testRun ++ [eventObject eventName ts d])
                (Run.transcript testRun) (Run.audioChunks testRun)
                (Run.surveyResponses testRun)
                (Run.finalized testRun) (Run.endTime testRun)
                (Run.createdAt testRun) now in
    (mkBackend (Js.mapSet (routeRuns b) runId testRun')
               (serviceRuns b) (personaStore b), ok).

(** POST /api/tests/runs/transcript. *)
Definition updateTestRunTranscript (b : Backend)
    (userId runId chunk : string) (now : Z) : Backend * Response :=
  if String.eqb runId "" || String.eqb chunk "" then (b, failure 400)
  else
    let testRun := getOrCreate b runId userId now in
    let testRun' :=
      Run.mkRun (Run.id testRun) (Run.userId testRun)
                (Run.events testRun)
                (Run.transcript testRun ++ chunk)
                (Run.audioChunks testRun)
                (Run.surveyResponses testRun)
                (Run.finalized testRun) (Run.endTime testRun)
                (Run.createdAt testRun) now in
    (mkBackend (Js.mapSet (routeRuns b) runId testRun')
               (serviceRuns b) (personaStore b), ok).

(** POST /api/tests/runs/audio. [file] is the size of the uploaded chunk,
    if the request carries one. *)
Definition handleTestRunAudioUpload (b : Backend) (userId runId : string)
    (file : option nat) (now : Z) : Backend * Response :=
  if String.eqb runId "" then (b, failure 400)
  else
    match file with
    | None => (b, failure 400)
    | Some size =>
        let testRun := getOrCreate b runId userId now in
        let testRun' :=
          Run.mkRun (Run.id testRun) (Run.userId testRun)
                    (Run.events testRun) (Run.transcript testRun)
                    (Run.audioChunks testRun ++ [Run.mkChunk now size])
                    (Run.surveyResponses testRun)
                    (Run.finalized testRun) (Run.endTime testRun)
                    (Run.createdAt testRun) now in
        (mkBackend (Js.mapSet (routeRuns b) runId testRun')
                   (serviceRuns b) (personaStore b), ok)
    end.

(** POST /api/tests/runs/finalize. The handler marks the run, hands its
    map to the service with [setTestRuns], and awaits [buildPersona]; a
    rejection lands in the [catch] and becomes a 500. *)
Definition finalizeTestRun (b : Backend) (runId : string) (now : Z)
    (env : PersonaService.Env) : Backend * Response :=
  if String.eqb runId "" then (b, failure 400)
  else
    match Js.mapGet (routeRuns b) runId with
    | None => (b, failure 404)
    | Some testRun =>
        let testRun' :=
          Run.mkRun (Run.id testRun) (Run.userId testRun)
                    (Run.events testRun) (Run.transcript testRun)
                    (Run.audioChunks testRun)
                    (Run.surveyResponses testRun)
                    true (Some now)
                    (Run.createdAt testRun) (Run.updatedAt testRun) in
        let routeRuns' := Js.mapSet (routeRuns b) runId testRun' in
        let serviceRuns' :=
          PersonaService.setTestRuns (serviceRuns b) routeRuns' in
        match PersonaService.buildPersona serviceRuns' (personaStore b)
                                          env runId with
        | (store', PersonaService.Resolved personaData) =>
            (mkBackend routeRuns' serviceRuns' store',
             mkResponse 200 true
               (Some (PersonaService.personaId personaData)))
        | (store', PersonaService.Rejected _) =>
            (mkBackend routeRuns' serviceRuns' store', failure 500)
        end
    end.

(** The requests that write to the run map. *)
Inductive Request : Type :=
| LogEvent (userId runId eventName : string) (timestamp : option Z)
           (data : Js.JsVal) (now : Z)
| Transcript (userId runId chunk : string) (now : Z)
| Audio (userId runId : string) (file : option nat) (now : Z)
| Finalize (runId : string) (now : Z) (env : PersonaService.Env).

Definition handle (b : Backend) (r : Request) : Backend * Response :=
  match r with
  | LogEvent u run e t d now => logTestRunEvent b u run e t d now
  | Transcript u run c now => updateTestRunTranscript b u run c now
  | Audio u run f now => handleTestRunAudioUpload b u run f now
  | Finalize run now env => finalizeTestRun b run now env
  end.

(** The backend after serving a sequence of requests. *)
Definition serve (b : Backend) (rs : list Request) : Backend :=
  fold_left (fun b r => fst (handle b r)) rs b.

End TestsRoutes.

(** ** routes/personas: reading personas *)

Module PersonaRoutes.

(** The fields of [GET /api/personas/me]. *)
Record Summary : Type := mkSummary {
  s_personaId : string;
  s_name : string;
  s_traitScores : list (string * Q);
  s_painPoints : list string;
  s_quotes : list string;
  s_createdAt : Z
}.

(** One row of [GET /api/personas]. *)
Record Row : Type := mkRow {
  r_id : string;
  r_name : string;
  r_runId : string;
  r_createdAt : Z;
  r_updatedAt : Z
}.

(** The JSON responses of the three handlers. *)
Inductive Response : Type :=
| NotFound
| Forbidden
| Mine (data : Summary)
| One (data : PersonaModel.Persona)
| Many (data : list Row) (total : nat).

Definition status (r : Response) : nat :=
  match r with
  | NotFound => 404
  | Forbidden => 403
  | Mine _ | One _ | Many _ _ => 200
  end.


(** GET /api/personas/:id for the authenticated [userId]. *)
Definition getPersonaById (store : PersonaModel.PersonaStore)
    (userId id : string) : Response :=
  match PersonaModel.getById store id with
  | None => NotFound
  | Some persona =>
      if negb (String.eqb (PersonaModel.userId persona) userId)
      then Forbidden
      else One persona
  end.


End PersonaRoutes.

(** ** models/TestInstance: the in-memory test instance store *)

Module TestInstanceModel.

Inductive Status : Type := draft | active | completed | archived.

Definition isActive (s : Status) : bool :=
  match s with active => true | _ => false end.

Definition isCompleted (s : Status) : bool :=
  match s with completed => true | _ => false end.

Record TestInstance : Type := mkInstance {
  id : string;
  templateId : string;
  name : string;
  description : string;
  status : Status;
  createdAt : Z;
  updatedAt : Z;
  startedAt : option Z;
  completedAt : option Z;
  score : option Q;
  maxScore : option Q
}.

Record TestInstanceStore : Type := mkStore {
  instances : list TestInstance;
  nextId : nat
}.

Definition emptyStore : TestInstanceStore := mkStore [] 1.

(** [createFromTemplate]; [now1] and [now2] are its two clock readings. *)
Definition createFromTemplate (st : TestInstanceStore)
    (templateId templateName templateDescription : string) (now1 now2 : Z)
  : TestInstanceStore * TestInstance :=
  let instance :=
    mkInstance (JsString.natToString (nextId st)) templateId templateName
               templateDescription draft now1 now2 None None None None in
  (mkStore (instances st ++ [instance]) (S (nextId st)), instance).

Definition getAll (st : TestInstanceStore) : list TestInstance :=
  instances st.

Definition getById (st : TestInstanceStore) (i : string)
  : option TestInstance :=
  Js.find (fun instance => String.eqb (id instance) i) (instances st).

Definition getByTemplateId (st : TestInstanceStore) (t : string)
  : list TestInstance :=
  List.filter (fun instance => String.eqb (templateId instance) t)
              (instances st).

(** The body of [updateStatus] on the instance found: the status and the
    update time are set, and the start and completion times are stamped on
    the first transition to active and to completed. [now1] is the clock
    reading for [updatedAt], [now2] the one for the stamp. *)
Definition withStatus (x : TestInstance) (s : Status) (now1 now2 : Z)
  : TestInstance :=
  mkInstance (id x) (templateId x) (name x) (description x) s
             (createdAt x) now1
             (if isActive s
              then match startedAt x with
                   | Some t => Some t
                   | None => Some now2
                   end
              else startedAt x)
             (if isCompleted s
              then match completedAt x with
                   | Some t => Some t
                   | None => Some now2
                   end
              else completedAt x)
             (score x) (maxScore x).

(** The body of [updateScore] on the instance found. *)
Definition withScore (x : TestInstance) (sc mx : Q) (now : Z)
  : TestInstance :=
  mkInstance (id x) (templateId x) (name x) (description x) (status x)
             (createdAt x) now (startedAt x) (completedAt x)
             (Some sc) (Some mx).

(** The first instance with the given id is changed in place. *)
Fixpoint changeFirst (i : string) (f : TestInstance -> TestInstance)
    (l : list TestInstance) : list TestInstance :=
  match l with
  | [] => []
  | x :: r =>
      if String.eqb (id x) i then f x :: r else x :: changeFirst i f r
  end.

Definition updateStatus (st : TestInstanceStore) (i : string) (s : Status)
    (now1 now2 : Z) : TestInstanceStore * option TestInstance :=
  match Js.find (fun inst => String.eqb (id inst) i) (instances st) with
  | None => (st, None)
  | Some x =>
      (mkStore (changeFirst i (fun x => withStatus x s now1 now2)
                            (instances st))
               (nextId st),
       Some (withStatus x s now1 now2))
  end.

Definition updateScore (st : TestInstanceStore) (i : string) (sc mx : Q)
    (now : Z) : TestInstanceStore * option TestInstance :=
  match Js.find (fun inst => String.eqb (id inst) i) (instances st) with
  | None => (st, None)
  | Some x =>
      (mkStore (changeFirst i (fun x => withScore x sc mx now)
                            (instances st))
               (nextId st),
       Some (withScore x sc mx now))
  end.

(** [findIndex] followed by [splice(index, 1)]. *)
Fixpoint removeFirst (i : string) (l : list TestInstance)
  : list TestInstance :=
  match l with
  | [] => []
  | x :: r => if String.eqb (id x) i then r else x :: removeFirst i r
  end.

Definition delete (st : TestInstanceStore) (i : string)
  : TestInstanceStore * bool :=
  match Js.find (fun instance => String.eqb (id instance) i)
                (instances st) with
  | None => (st, false)
  | Some _ => (mkStore (removeFirst i (instances st)) (nextId st), true)
  end.

End TestInstanceModel.

(** ** models/TestTemplate: what the test routes read of a template *)

Module TestTemplateModel.

(** The fields of a template that the test routes read. *)
Record TestTemplate : Type := mkTemplate {
  id : string;
  name : string;
  description : string
}.

Definition templates : list TestTemplate :=
  [ mkTemplate "spotOnClick" "Spot-On Click Challenge"
      "Quick click testing to evaluate user intuition and navigation patterns.";
    mkTemplate "rapidRecall" "Rapid Recall Sprint"
      "Memory testing through brief exposure and rapid recall exercises.";
    mkTemplate "workflowDeepDive" "Workflow Deep-Dive Review"
      "Comprehensive workflow testing with think-aloud and task completion." ].

Definition getById (i : string) : option TestTemplate :=
  Js.find (fun template => String.eqb (id template) i) templates.

End TestTemplateModel.

(** ** routes/tests: the test instance routes *)

Module InstanceRoutes.

(** The four status strings the PATCH route accepts. *)
Definition parseStatus (s : string) : option TestInstanceModel.Status :=
  if String.eqb s "draft" then Some TestInstanceModel.draft
  else if String.eqb s "active" then Some TestInstanceModel.active
  else if String.eqb s "completed" then Some TestInstanceModel.completed
  else if String.eqb s "archived" then Some TestInstanceModel.archived
  else None.

(** POST /api/tests: the store after the request and the status code. *)
Definition createTest (st : TestInstanceModel.TestInstanceStore)
    (templateId : string) (now1 now2 : Z)
  : TestInstanceModel.TestInstanceStore * nat :=
  if String.eqb templateId "" then (st, 400)
  else
    match TestTemplateModel.getById templateId with
    | None => (st, 404)
    | Some template =>
        (fst (TestInstanceModel.createFromTemplate st templateId
                (TestTemplateModel.name template)
                (TestTemplateModel.description template) now1 now2),
         201)
    end.

(** PATCH /api/tests/:id/status. *)
Definition updateTestStatus (st : TestInstanceModel.TestInstanceStore)
    (id status : string) (now1 now2 : Z)
  : TestInstanceModel.TestInstanceStore * nat :=
  if String.eqb status "" then (st, 400)
  else
    match parseStatus status with
    | None => (st, 400)
    | Some s =>
        match TestInstanceModel.updateStatus st id s now1 now2 with
        | (st', None) => (st', 404)
        | (st', Some _) => (st', 200)
        end
    end.

(** PATCH /api/tests/:id/score. A body field that is not a number is
    [None]. *)
Definition updateTestScore (st : TestInstanceModel.TestInstanceStore)
    (id : string) (score maxScore : option Q) (now : Z)
  : TestInstanceModel.TestInstanceStore * nat :=
  match score, maxScore with
  | Some sc, Some mx =>
      if Qlt_le_dec sc 0 then (st, 400)
      else if Qlt_le_dec 0 mx
           then if Qlt_le_dec mx sc then (st, 400)
                else match TestInstanceModel.updateScore st id sc mx now with
                     | (st', None) => (st', 404)
                     | (st', Some _) => (st', 200)
                     end
           else (st, 400)
  | _, _ => (st, 400)
  end.

(** POST /api/test-responses, as far as the instance store goes: the first
    instance of the template is marked completed. The persona data of the
    response is only logged and is left out; [insightsThrow] says whether
    computing it raises (a [responses] field that is not an array of
    objects), which lands in the [catch] before the store is touched. *)
Definition submitTestResponses (st : TestInstanceModel.TestInstanceStore)
    (templateId testType : string) (insightsThrow : bool) (now1 now2 : Z)
  : TestInstanceModel.TestInstanceStore * nat :=
  if String.eqb templateId "" || String.eqb testType "" then (st, 400)
  else
    match TestTemplateModel.getById templateId with
    | None => (st, 404)
    | Some _ =>
        if insightsThrow then (st, 500) else
        match Js.find (fun test =>
                         String.eqb (TestInstanceModel.templateId test)
                                    templateId)
                      (TestInstanceModel.getAll st) with
        | Some relatedTest =>
            (fst (TestInstanceModel.updateStatus st
                    (TestInstanceModel.id relatedTest)
                    TestInstanceModel.completed now1 now2), 201)
        | None => (st, 201)
        end
    end.

(** The requests that write to the instance store. *)
Inductive Request : Type :=
| CreateTest (templateId : string) (now1 now2 : Z)
| UpdateStatus (id status : string) (now1 now2 : Z)
| UpdateScore (id : string) (score maxScore : option Q) (now : Z)
| SubmitResponses (templateId testType : string) (insightsThrow : bool)
                  (now1 now2 : Z).

Definition handle (st : TestInstanceModel.TestInstanceStore) (r : Request)
  : TestInstanceModel.TestInstanceStore * nat :=
  match r with
  | CreateTest t now1 now2 => createTest st t now1 now2
  | UpdateStatus i s now1 now2 => updateTestStatus st i s now1 now2
  | UpdateScore i sc mx now => updateTestScore st i sc mx now
  | SubmitResponses t ty bad now1 now2 =>
      submitTestResponses st t ty bad now1 now2
  end.

Definition serve (st : TestInstanceModel.TestInstanceStore)
    (rs : list Request) : TestInstanceModel.TestInstanceStore :=
  fold_left (fun st r => fst (handle st r)) rs st.

End InstanceRoutes.

(** * Notions used in the statements *)

Module Notions.

Import PersonaService.

Section Front.
Context {A : Type} (after : A -> A -> bool).

(** What ends up in front: scanning from the right, the current front
    element gives way only to one the comparator puts strictly first. *)
Fixpoint front (l : list A) : option A :=
  match l with
  | [] => None
  | x :: r =>
      match front r with
      | None => Some x
      | Some y => Some (if after x y then y else x)
      end
  end.

End Front.

Local Open Scope Q_scope.

(** The accumulated scores before the survey responses are looked at. *)
Definition behaviourScores (events : list (gmap string Js.JsVal))
    (transcript : string) : list (string * Q) :=
  let scores : list (string * Q) :=
    [ ("Analytical", 0); ("Creative", 0); ("Social", 0); ("Practical", 0);
      ("Confident", 0); ("Cautious", 0); ("Efficient", 0); ("Thorough", 0) ]%string in
  let counts := eventCounts events in
  let scores := if countAbove counts "click" 10
                then addScore "Practical" (3 # 10) scores else scores in
  let scores := if countAbove counts "hover" 5
                then addScore "Cautious" (2 # 10) scores else scores in
  let scores := if countAbove counts "scroll" 3
                then addScore "Thorough" (2 # 10) scores else scores in
  let scores := if countAbove counts "keypress" 20
                then addScore "Efficient" (3 # 10) scores else scores in
  let transcriptLower := JsString.toLowerCase transcript in
  let scores := if JsString.includes transcriptLower "think"
                   || JsString.includes transcriptLower "analyze"
                then addScore "Analytical" (4 # 10) scores else scores in
  let scores := if JsString.includes transcriptLower "creative"
                   || JsString.includes transcriptLower "imagine"
                then addScore "Creative" (4 # 10) scores else scores in
  let scores := if JsString.includes transcriptLower "people"
                   || JsString.includes transcriptLower "team"
                then addScore "Social" (4 # 10) scores else scores in
  if JsString.includes transcriptLower "confident"
     || JsString.includes transcriptLower "sure"
  then addScore "Confident" (3 # 10) scores else scores.

(** The transcript rule for Confident. *)
Definition soundsConfident (transcript : string) : bool :=
  JsString.includes (JsString.toLowerCase transcript) "confident"
  || JsString.includes (JsString.toLowerCase transcript) "sure".

(** The survey rule for Confident. *)
Definition confidenceHigh (r : Run.SurveyResponse) : bool :=
  negb (String.eqb (Run.question r) "")
  && negb (String.eqb (Run.answer r) "")
  && JsString.includes (JsString.toLowerCase (Run.question r)) "confidence"
  && JsString.includes (JsString.toLowerCase (Run.answer r)) "high".

Definition matchingResponses (rs : list Run.SurveyResponse) : nat :=
  List.length (List.filter confidenceHigh rs).

(** A survey response that reports high confidence. *)
Definition sureOfIt : Run.SurveyResponse :=
  Run.mkSurvey "How would you rate your confidence?" "High".

(** [n] click events as [logTestRunEvent] stores them. *)
Definition storedClicks (n : nat) : list (gmap string Js.JsVal) :=
  repeat (TestsRoutes.eventObject "click" 1700000000000 (Js.JObj [])) n.

(** The same events with the property the scorer reads. *)
Definition typedClicks (n : nat) : list (gmap string Js.JsVal) :=
  repeat (<["type" := Js.JStr "click"]>
            (TestsRoutes.eventObject "click" 1700000000000 (Js.JObj []))) n.

(** An event object without a [type] property. *)
Definition untyped (e : gmap string Js.JsVal) : Prop :=
  e !! "type" = None.

(** A session: one click event and one transcript chunk for run-1. *)
Definition session : list TestsRoutes.Request :=
  [ TestsRoutes.LogEvent "user-1" "run-1" "click" None Js.JUndefined 1000;
    TestsRoutes.Transcript "user-1" "run-1"
      "I think this is hard and I feel confused." 2000 ].

Definition afterSession : TestsRoutes.Backend :=
  TestsRoutes.serve TestsRoutes.initial session.

(** The environment of a first and of a second call of [buildPersona]. *)
Definition env1 : Env := mkEnv (1 # 4) 3000 3000.
Definition env2 : Env := mkEnv (3 # 4) 4000 4001.

(** What no request changes: the service's map has no entry and the
    persona store is the empty one. *)
Definition idle (b : TestsRoutes.Backend) : Prop :=
  Js.entries (TestsRoutes.serviceRuns b) = ∅
  /\ TestsRoutes.personaStore b = PersonaModel.emptyStore.

(** A service map that does hold a run, as [buildPersona] expects it. *)
Definition heldRun : Run.TestRun :=
  Run.mkRun "run-1" "user-1" (storedClicks 2)
            "I think this is hard and I feel confused." []
            (Some [sureOfIt]) true (Some 2500%Z) 1000 2000.

Definition holdingMap : Js.JsMap Run.TestRun :=
  Js.mapSet Js.newMap "run-1" heldRun.

(** The calls a client of the persona store can make. *)
Inductive StoreOp : Type :=
| Create (data : PersonaModel.PersonaData) (now1 now2 : Z)
| Update (id : string) (updates : PersonaModel.PersonaUpdates) (now : Z)
| Delete (id : string).

(** One call: the store after it, and the persona [create] returned. *)
Definition storeStep (st : PersonaModel.PersonaStore) (op : StoreOp)
  : PersonaModel.PersonaStore * list PersonaModel.Persona :=
  match op with
  | Create data now1 now2 =>
      let '(st', p) := PersonaModel.create st data now1 now2 in (st', [p])
  | Update i u now => (fst (PersonaModel.update st i u now), [])
  | Delete i => (fst (PersonaModel.delete st i), [])
  end.

(** A sequence of calls: the final store and, in order, every persona
    ever created. *)
Fixpoint storeRun (st : PersonaModel.PersonaStore) (ops : list StoreOp)
  : PersonaModel.PersonaStore * list PersonaModel.Persona :=
  match ops with
  | [] => (st, [])
  | op :: rest =>
      let '(st', made) := storeStep st op in
      let '(st'', made') := storeRun st' rest in
      (st'', (made ++ made')%list)
  end.

(** The counter value an id was printed from. *)
Definition idNumber (p : PersonaModel.Persona) : nat :=
  match NilZero.uint_of_string (PersonaModel.id p) with
  | Some d => Nat.of_uint d
  | None => 0
  end.

(** The stored personas are listed in the order of their counter values,
    each id is the decimal string of its counter value, and every counter
    value handed out lies below [nextId]. *)
Definition wellNumbered (st : PersonaModel.PersonaStore) : Prop :=
  (1 <= PersonaModel.nextId st)%nat
  /\ StronglySorted lt (List.map idNumber (PersonaModel.personas st))
  /\ Forall (fun p =>
               PersonaModel.id p = JsString.natToString (idNumber p)
               /\ (1 <= idNumber p < PersonaModel.nextId st)%nat)
            (PersonaModel.personas st).

(** The scores of a run whose transcript mentions a team. *)
Definition teamScores : list (string * Q) :=
  computeTraitScores [] "We work as a team" [].

(** A sentence as it is returned: trimmed, surrounding quotes removed. *)
Definition cleaned (sentence : string) : string :=
  JsString.stripQuotes (JsString.trim sentence).

Definition hasPainKeyword (sentence : string) : bool :=
  existsb (fun keyword =>
             JsString.includes (JsString.toLowerCase sentence) keyword)
          painKeywords.

(** The extractor as the specification words it: fragments shorter than
    10 characters after trimming are discarded, and a sentence with a pain
    keyword is retained if its cleaned length is between 10 and 200, both
    bounds included. *)
Definition extractPainPoints_asSpecified (transcript : string)
  : list string :=
  firstn 3
    (List.map cleaned
       (List.filter
          (fun s => hasPainKeyword s
                    && (10 <=? String.length (cleaned s))%nat
                    && (String.length (cleaned s) <=? 200)%nat)
          (List.filter
             (fun s => negb (String.length (JsString.trim s) <? 10)%nat)
             (JsString.splitSentences transcript)))).

(** The test a fragment passes to be returned by the code: a pain keyword
    and a cleaned length strictly between 10 and 200. *)
Definition painful (s : string) : bool :=
  hasPainKeyword s
  && ((10 <? String.length (cleaned s))%nat
      && (String.length (cleaned s) <? 200)%nat).

(** The first-person markers of [extractQuotes], tested on the lower-cased
    cleaned sentence. *)
Definition soundsPersonal (lowerSentence : string) : bool :=
  JsString.includes lowerSentence "i "
  || JsString.includes lowerSentence "me "
  || JsString.includes lowerSentence "my "
  || JsString.includes lowerSentence "think"
  || JsString.includes lowerSentence "feel"
  || JsString.includes lowerSentence "like"
  || JsString.includes lowerSentence "prefer".

(** The test a fragment passes to be returned as a quote. *)
Definition quotable (s : string) : bool :=
  ((20 <? String.length (cleaned s))%nat
   && (String.length (cleaned s) <? 150)%nat)
  && soundsPersonal (JsString.toLowerCase (cleaned s)).

(** The property key an event is counted under. *)
Definition typeKey (e : gmap string Js.JsVal) : string :=
  Js.toPropertyKey (Js.getProp e "type").

(** The number of events counted under a key. *)
Definition countType (k : string) (events : list (gmap string Js.JsVal))
  : nat :=
  List.length (List.filter (fun e => String.eqb (typeKey e) k) events).

(** A transcript rule: the lower-cased transcript contains one of two
    keywords. *)
Definition mentions (transcript a b : string) : bool :=
  JsString.includes (JsString.toLowerCase transcript) a
  || JsString.includes (JsString.toLowerCase transcript) b.

(** The survey rule for Creative. *)
Definition prefersCreative (r : Run.SurveyResponse) : bool :=
  negb (String.eqb (Run.question r) "")
  && negb (String.eqb (Run.answer r) "")
  && JsString.includes (JsString.toLowerCase (Run.question r)) "preference"
  && JsString.includes (JsString.toLowerCase (Run.answer r)) "creative".

Definition creativeResponses (rs : list Run.SurveyResponse) : nat :=
  List.length (List.filter prefersCreative rs).

(** An increment that applies when its rule fires. *)
Definition bonus (fires : bool) (d : Q) : Q := if fires then d else 0.

(** One rule of the scorer: add [d] to the score of [k] when the rule
    fires. *)
Definition applyRule (fires : bool) (k : string) (d : Q)
    (scores : list (string * Q)) : list (string * Q) :=
  if fires then addScore k d scores else scores.

(** The scores every run starts from. *)
Definition zeroScores : list (string * Q) :=
  [ ("Analytical", 0); ("Creative", 0); ("Social", 0); ("Practical", 0);
    ("Confident", 0); ("Cautious", 0); ("Efficient", 0); ("Thorough", 0) ]%string.

(** Whether an id resolves in a store. *)
Definition isStored (st : PersonaModel.PersonaStore) (i : string) : bool :=
  match PersonaModel.getById st i with
  | Some _ => true
  | None => false
  end.

(** The run stored under an id by the routes. *)
Definition runOf (b : TestsRoutes.Backend) (r : string)
  : option Run.TestRun :=
  Js.mapGet (TestsRoutes.routeRuns b) r.

(** What one request contributes to run [r]: the user of an accepted
    write, a transcript chunk, an event name. *)
Definition writerFor (r : string) (req : TestsRoutes.Request)
  : option string :=
  match req with
  | TestsRoutes.LogEvent u run e _ _ _ =>
      if String.eqb run r && negb (String.eqb run "")
         && negb (String.eqb e "")
      then Some u else None
  | TestsRoutes.Transcript u run c _ =>
      if String.eqb run r && negb (String.eqb run "")
         && negb (String.eqb c "")
      then Some u else None
  | TestsRoutes.Audio u run (Some _) _ =>
      if String.eqb run r && negb (String.eqb run "")
      then Some u else None
  | _ => None
  end.

Definition chunkFor (r : string) (req : TestsRoutes.Request) : string :=
  match req with
  | TestsRoutes.Transcript _ run c _ =>
      if String.eqb run r && negb (String.eqb run "") then c else ""
  | _ => ""
  end.

Definition eventFor (r : string) (req : TestsRoutes.Request)
  : list string :=
  match req with
  | TestsRoutes.LogEvent _ run e _ _ _ =>
      if String.eqb run r && negb (String.eqb run "")
         && negb (String.eqb e "")
      then [e] else []
  | _ => []
  end.

(** The same over a sequence of requests, in order. *)
Definition firstWriter (r : string) (rs : list TestsRoutes.Request)
  : option string :=
  head (omap (writerFor r) rs).

Definition transcriptLog (r : string) (rs : list TestsRoutes.Request)
  : string :=
  fold_right (fun req rest => (chunkFor r req ++ rest)%string) "" rs.

Definition eventLog (r : string) (rs : list TestsRoutes.Request)
  : list string :=
  List.flat_map (eventFor r) rs.

(** Three readings of a stored run. *)
Definition ownerOf (b : TestsRoutes.Backend) (r : string) : option string :=
  Run.userId <$> runOf b r.

Definition transcriptOf (b : TestsRoutes.Backend) (r : string) : string :=
  default "" (Run.transcript <$> runOf b r).

Definition eventNamesOf (b : TestsRoutes.Backend) (r : string)
  : list Js.JsVal :=
  default []
    (List.map (fun e => Js.getProp e "name") <$> (Run.events <$> runOf b r)).

Definition isFinalized (b : TestsRoutes.Backend) (r : string) : bool :=
  default false (Run.finalized <$> runOf b r).

(** The backend after the session and one finalize request. *)
Definition afterFinalize : TestsRoutes.Backend :=
  fst (TestsRoutes.finalizeTestRun afterSession "run-1" 3000 env1).

(** A run as [finalizeTestRun] leaves it. *)
Definition markFinalized (run : Run.TestRun) (now : Z) : Run.TestRun :=
  Run.mkRun (Run.id run) (Run.userId run) (Run.events run)
            (Run.transcript run) (Run.audioChunks run)
            (Run.surveyResponses run) true (Some now)
            (Run.createdAt run) (Run.updatedAt run).

(** The calls a client of the test instance store can make. *)
Inductive InstanceOp : Type :=
| ICreate (templateId name description : string) (now1 now2 : Z)
| IStatus (id : string) (s : TestInstanceModel.Status) (now1 now2 : Z)
| IScore (id : string) (score maxScore : Q) (now : Z)
| IDelete (id : string).

Definition instanceStep (st : TestInstanceModel.TestInstanceStore)
    (op : InstanceOp) : TestInstanceModel.TestInstanceStore :=
  match op with
  | ICreate t n d now1 now2 =>
      fst (TestInstanceModel.createFromTemplate st t n d now1 now2)
  | IStatus i s now1 now2 =>
      fst (TestInstanceModel.updateStatus st i s now1 now2)
  | IScore i sc mx now => fst (TestInstanceModel.updateScore st i sc mx now)
  | IDelete i => fst (TestInstanceModel.delete st i)
  end.

Definition instanceRun (st : TestInstanceModel.TestInstanceStore)
    (ops : list InstanceOp) : TestInstanceModel.TestInstanceStore :=
  fold_left instanceStep ops st.

(** An instance carries the stamps its status calls for. *)
Definition stamped (x : TestInstanceModel.TestInstance) : Prop :=
  (TestInstanceModel.status x = TestInstanceModel.active ->
   is_Some (TestInstanceModel.startedAt x))
  /\ (TestInstanceModel.status x = TestInstanceModel.completed ->
      is_Some (TestInstanceModel.completedAt x)).

(** What a status update leaves alone on every instance. *)
Definition keepsStamps (x x' : TestInstanceModel.TestInstance) : Prop :=
  TestInstanceModel.id x' = TestInstanceModel.id x
  /\ TestInstanceModel.templateId x' = TestInstanceModel.templateId x
  /\ TestInstanceModel.createdAt x' = TestInstanceModel.createdAt x
  /\ TestInstanceModel.score x' = TestInstanceModel.score x
  /\ TestInstanceModel.maxScore x' = TestInstanceModel.maxScore x
  /\ (forall t, TestInstanceModel.startedAt x = Some t ->
                TestInstanceModel.startedAt x' = Some t)
  /\ (forall t, TestInstanceModel.completedAt x = Some t ->
                TestInstanceModel.completedAt x' = Some t).

(** A stored score lies between 0 and a positive maximum. *)
Definition scoreInRange (x : TestInstanceModel.TestInstance) : Prop :=
  match TestInstanceModel.score x, TestInstanceModel.maxScore x with
  | Some sc, Some mx => (0 <= sc /\ sc <= mx /\ 0 < mx)%Q
  | None, None => True
  | _, _ => False
  end.




End Notions.

Import Notions.

(** * Properties *)

Local Open Scope list_scope.

(** ** Facts about the string primitives *)

Section StringFacts.
Import JsString.

Lemma length_trimStart_le (s : string) :
  String.length (trimStart s) <= String.length s.
Proof.
  induction s as [|c r IH]; simpl; [lia|].
  destruct (isWhite c); simpl; lia.
Qed.

Lemma length_trimEnd_le (s : string) :
  String.length (trimEnd s) <= String.length s.
Proof.
  induction s as [|c r IH]; simpl; [lia|].
  destruct (trimEnd r) eqn:E.
  - destruct (isWhite c); simpl; lia.
  - simpl in *. lia.
Qed.

Lemma length_trim_le (s : string) :
  String.length (trim s) <= String.length s.
Proof.
  unfold trim. etransitivity; [apply length_trimEnd_le|].
  apply length_trimStart_le.
Qed.

Lemma length_dropTrailingQuote_le (s : string) :
  String.length (dropTrailingQuote s) <= String.length s.
Proof.
  induction s as [|c r IH]; simpl; [lia|].
  destruct r as [|c' r'].
  - destruct (isQuote c); simpl; lia.
  - change (String.length (String c (dropTrailingQuote (String c' r')))
            <= S (String.length (String c' r'))).
    simpl in *. lia.
Qed.

Lemma length_stripQuotes_le (s : string) :
  String.length (stripQuotes s) <= String.length s.
Proof.
  unfold stripQuotes.
  etransitivity; [apply length_dropTrailingQuote_le|].
  destruct s as [|c r]; simpl; [lia|].
  destruct (isQuote c); simpl; lia.
Qed.

Lemma to_uint_nonnil (n : nat) : Nat.to_uint n <> Decimal.Nil.
Proof.
  rewrite <- (DecimalNat.Unsigned.of_to n) at 1.
  rewrite DecimalNat.Unsigned.to_of.
  apply DecimalFacts.unorm_nonnil.
Qed.

(** The decimal rendering of a counter determines the counter. *)
Lemma natToString_inj (n m : nat) :
  natToString n = natToString m -> n = m.
Proof.
  unfold natToString. intros H.
  apply DecimalNat.Unsigned.to_uint_inj.
  pose proof (NilZero.usu _ (to_uint_nonnil n)) as Hn.
  pose proof (NilZero.usu _ (to_uint_nonnil m)) as Hm.
  rewrite H in Hn. congruence.
Qed.

End StringFacts.

(** ** Facts about the stable sort *)

Section SortFacts.
Context {A : Type} (after : A -> A -> bool).


Lemma head_insertSorted (x : A) (l : list A) :
  head (Js.insertSorted after x l)
  = Some (match head l with
          | None => x
          | Some y => if after x y then y else x
          end).
Proof. destruct l as [|y r]; simpl; [done|]. by destruct (after x y). Qed.

Lemma head_sortBy (l : list A) : head (Js.sortBy after l) = front after l.
Proof.
  induction l as [|x r IH]; [done|].
  change (Js.sortBy after (x :: r))
    with (Js.insertSorted after x (Js.sortBy after r)).
  rewrite head_insertSorted, IH. simpl. by destruct (front after r).
Qed.

Lemma insertSorted_perm (x : A) (l : list A) :
  Js.insertSorted after x l ≡ₚ x :: l.
Proof.
  induction l as [|y r IH]; simpl; [done|].
  destruct (after x y); [|done].
  rewrite IH. apply Permutation_swap.
Qed.

Lemma sortBy_perm (l : list A) : Js.sortBy after l ≡ₚ l.
Proof.
  induction l as [|x r IH]; [done|].
  change (Js.sortBy after (x :: r))
    with (Js.insertSorted after x (Js.sortBy after r)).
  by rewrite insertSorted_perm, IH.
Qed.

(** The comparator comes from an order: it is asymmetric, and "may stay
    in front of" is transitive. *)
Hypothesis after_asym : forall x y, after x y = true -> after y x = false.
Hypothesis keep_trans :
  forall x y z, after x y = false -> after y z = false -> after x z = false.

Lemma insertSorted_sorted (x : A) (l : list A) :
  StronglySorted (fun a b => after a b = false) l ->
  StronglySorted (fun a b => after a b = false) (Js.insertSorted after x l).
Proof.
  induction 1 as [|y r Hr IH Hy]; simpl.
  - repeat constructor.
  - destruct (after x y) eqn:E.
    + constructor; [exact IH|].
      rewrite insertSorted_perm. constructor; [by apply after_asym|done].
    + constructor; [by constructor|].
      constructor; [done|].
      eapply Forall_impl; [exact Hy|]. intros z Hz. by eapply keep_trans.
Qed.

Lemma sortBy_sorted (l : list A) :
  StronglySorted (fun a b => after a b = false) (Js.sortBy after l).
Proof.
  induction l as [|x r IH]; [constructor|].
  by apply insertSorted_sorted.
Qed.

(** The front element is the first of the best ones: everything before it
    in the array is strictly behind it, nothing after it is ahead of it. *)
Lemma front_first_best (l : list A) (m : A) :
  front after l = Some m ->
  exists l1 l2, l = l1 ++ m :: l2
    /\ Forall (fun x => after x m = true) l1
    /\ Forall (fun x => after m x = false) l2.
Proof.
  revert m. induction l as [|x r IH]; intros m; simpl; [done|].
  destruct (front after r) as [y|] eqn:Hf.
  - destruct (IH y eq_refl) as (l1 & l2 & -> & H1 & H2).
    destruct (after x y) eqn:E; intros [= <-].
    + exists (x :: l1), l2. by repeat split; [constructor|].
    + exists [], (l1 ++ y :: l2). repeat split; [constructor|].
      apply Forall_app. split; [|constructor].
      * eapply Forall_impl; [exact H1|]. intros z Hz.
        eapply keep_trans; [exact E|]. by apply after_asym.
      * exact E.
      * eapply Forall_impl; [exact H2|]. intros z Hz.
        by eapply keep_trans.
  - intros [= <-]. destruct r; [|simpl in Hf; by destruct (front after r)].
    by exists [], [].
Qed.

End SortFacts.

(** ** The trait scorer *)

Section ScorerFacts.
Import PersonaService.
Local Open Scope Q_scope.

Lemma clamp_range (x : Q) : 0 <= clamp x /\ clamp x <= 1.
Proof.
  unfold clamp. split.
  - apply Q.min_glb; [apply Q.le_max_r | lra].
  - apply Q.le_min_r.
Qed.

Lemma clamp_le (x y : Q) : 0 <= y -> x <= y -> clamp x <= y.
Proof.
  intros Hy Hxy. unfold clamp.
  eapply Qle_trans; [apply Q.le_min_l|]. by apply Q.max_lub.
Qed.

Lemma keys_addScore (k : string) (d : Q) (s : list (string * Q)) :
  List.map fst (addScore k d s) = List.map fst s.
Proof.
  induction s as [|[k' v] r IH]; simpl; [done|].
  destruct (String.eqb k' k); simpl; by rewrite ?IH.
Qed.

Lemma keys_surveyStep (s : list (string * Q)) (r : Run.SurveyResponse) :
  List.map fst (surveyStep s r) = List.map fst s.
Proof.
  unfold surveyStep.
  repeat match goal with
         | |- context [if ?b then _ else _] => destruct b
         end; by rewrite ?keys_addScore.
Qed.

Lemma keys_surveys (rs : list Run.SurveyResponse) (s : list (string * Q)) :
  List.map fst (fold_left surveyStep rs s) = List.map fst s.
Proof.
  revert s. induction rs as [|r rs IH]; intros s; simpl; [done|].
  by rewrite IH, keys_surveyStep.
Qed.

Lemma score_addScore_same (k : string) (d : Q) (s : list (string * Q)) :
  In k (List.map fst s) -> score (addScore k d s) k = score s k + d.
Proof.
  induction s as [|[k' v] r IH]; simpl; [done|].
  intros Hin. destruct (String.eqb k' k) eqn:E; simpl; rewrite E; [done|].
  apply IH. destruct Hin as [->|]; [|done].
  by rewrite String.eqb_refl in E.
Qed.

Lemma score_addScore_other (k k' : string) (d : Q) (s : list (string * Q)) :
  k <> k' -> score (addScore k d s) k' = score s k'.
Proof.
  intros Hne. induction s as [|[k0 v] r IH]; simpl; [done|].
  destruct (String.eqb k0 k) eqn:E; simpl.
  - apply String.eqb_eq in E as ->.
    by apply String.eqb_neq in Hne as ->.
  - by rewrite IH.
Qed.

Lemma score_clamped (s : list (string * Q)) (k : string) :
  score (List.map (fun kv => (fst kv, clamp (snd kv))) s) k
  = clamp (score s k).
Proof.
  induction s as [|[k' v] r IH]; simpl; [done|].
  by destruct (String.eqb k' k).
Qed.


Lemma computeTraitScores_unfold events transcript surveys :
  computeTraitScores events transcript surveys
  = List.map (fun kv => (fst kv, clamp (snd kv)))
      (fold_left surveyStep surveys (behaviourScores events transcript)).
Proof. reflexivity. Qed.

Lemma keys_applyRule (fires : bool) (k : string) (d : Q)
    (s : list (string * Q)) :
  List.map fst (applyRule fires k d s) = List.map fst s.
Proof. destruct fires; [apply keys_addScore | done]. Qed.

Lemma score_applyRule_other (fires : bool) (k k' : string) (d : Q)
    (s : list (string * Q)) :
  k <> k' -> score (applyRule fires k d s) k' = score s k'.
Proof. intros H. destruct fires; [by apply score_addScore_other | done]. Qed.

Lemma score_applyRule_same (fires : bool) (k : string) (d : Q)
    (s : list (string * Q)) :
  In k (List.map fst s) ->
  score (applyRule fires k d s) k
  = if fires then score s k + d else score s k.
Proof. intros H. destruct fires; [by apply score_addScore_same | done]. Qed.

(** The rules in the order the scorer applies them. *)
Lemma behaviourScores_rules events transcript :
  behaviourScores events transcript
  = applyRule (mentions transcript "confident" "sure") "Confident" (3 # 10)
      (applyRule (mentions transcript "people" "team") "Social" (4 # 10)
         (applyRule (mentions transcript "creative" "imagine")
                    "Creative" (4 # 10)
            (applyRule (mentions transcript "think" "analyze")
                       "Analytical" (4 # 10)
               (applyRule (countAbove (eventCounts events) "keypress" 20)
                          "Efficient" (3 # 10)
                  (applyRule (countAbove (eventCounts events) "scroll" 3)
                             "Thorough" (2 # 10)
                     (applyRule (countAbove (eventCounts events) "hover" 5)
                                "Cautious" (2 # 10)
                        (applyRule
                           (countAbove (eventCounts events) "click" 10)
                           "Practical" (3 # 10) zeroScores))))))).
Proof. reflexivity. Qed.

Lemma keys_behaviourScores events transcript :
  List.map fst (behaviourScores events transcript) = traitNames.
Proof. rewrite behaviourScores_rules. by rewrite !keys_applyRule. Qed.

(** Reads one score off a stack of rules. *)
Ltac read_score :=
  rewrite behaviourScores_rules;
  rewrite ?score_applyRule_other by done;
  rewrite score_applyRule_same
    by (rewrite ?keys_applyRule; simpl; tauto);
  rewrite ?score_applyRule_other by done.

Lemma keys_computeTraitScores events transcript surveys :
  List.map fst (computeTraitScores events transcript surveys) = traitNames.
Proof.
  rewrite computeTraitScores_unfold, List.map_map. simpl.
  change (fun x : string * Q => fst x) with (@fst string Q).
  by rewrite keys_surveys, keys_behaviourScores.
Qed.


Lemma confident_behaviour events transcript :
  score (behaviourScores events transcript) "Confident"
  = if soundsConfident transcript then 0 + (3 # 10) else 0.
Proof.
  read_score. reflexivity.
Qed.


Lemma confident_surveyStep (s : list (string * Q)) (r : Run.SurveyResponse) :
  In "Confident"%string (List.map fst s) ->
  score (surveyStep s r) "Confident"
  = if confidenceHigh r then score s "Confident" + (2 # 10)
    else score s "Confident".
Proof.
  intros Hin. unfold surveyStep, confidenceHigh.
  destruct (negb (String.eqb (Run.question r) "")); simpl; [|done].
  destruct (negb (String.eqb (Run.answer r) "")); simpl; [|done].
  repeat match goal with
         | |- context [JsString.includes ?a ?b] =>
             destruct (JsString.includes a b)
         end; simpl;
    rewrite ?score_addScore_other by done;
    rewrite ?score_addScore_same by done; done.
Qed.

Lemma confident_surveys (rs : list Run.SurveyResponse)
    (s : list (string * Q)) :
  In "Confident"%string (List.map fst s) ->
  score (fold_left surveyStep rs s) "Confident"
  == score s "Confident"
     + (2 # 10) * inject_Z (Z.of_nat (matchingResponses rs)).
Proof.
  revert s. induction rs as [|r rs IH]; intros s Hin.
  - unfold matchingResponses. simpl fold_left. simpl List.filter.
    simpl List.length. change (inject_Z (Z.of_nat 0)) with 0. lra.
  - simpl fold_left. rewrite IH by (by rewrite keys_surveyStep).
    rewrite confident_surveyStep by done.
    unfold matchingResponses. simpl List.filter.
    destruct (confidenceHigh r); [|lra].
    simpl List.length. rewrite Nat2Z.inj_succ, <- Z.add_1_r, inject_Z_plus.
    change (inject_Z 1) with 1. lra.
Qed.

Lemma clamp_proper (x y : Q) : x == y -> clamp x == clamp y.
Proof. intros H. unfold clamp. by rewrite H. Qed.

(** The Confident score in closed form. *)
Lemma confident_score events transcript surveys :
  score (computeTraitScores events transcript surveys) "Confident"
  == clamp ((if soundsConfident transcript then 3 # 10 else 0)
            + (2 # 10) * inject_Z (Z.of_nat (matchingResponses surveys))).
Proof.
  rewrite computeTraitScores_unfold, score_clamped.
  apply clamp_proper.
  rewrite confident_surveys
    by (rewrite keys_behaviourScores; simpl; tauto).
  rewrite confident_behaviour.
  destruct (soundsConfident transcript); lra.
Qed.

End ScorerFacts.

Section ScoreRange.
Import PersonaService.
Local Open Scope Q_scope.

Lemma scores_clamped events transcript surveys :
  Forall (fun kv => 0 <= snd kv /\ snd kv <= 1)
         (computeTraitScores events transcript surveys).
Proof.
  rewrite computeTraitScores_unfold. apply List.Forall_map.
  apply List.Forall_forall. intros kv _. apply clamp_range.
Qed.

(** C3. Whatever the events, the transcript and the survey responses are,
    the scorer returns exactly the eight fixed traits, in their fixed
    order, each with a score between 0 and 1 inclusive; and the scores of
    a persona that [buildPersona] returns are the scorer's output for the
    run it found, hence in the same range. *)
Theorem trait_scores_within_unit_interval
    (events : list (gmap string Js.JsVal)) (transcript : string)
    (surveys : list Run.SurveyResponse)
    (testRuns : Js.JsMap Run.TestRun) (store : PersonaModel.PersonaStore)
    (env : Env) (runId : string) :
  List.map fst (computeTraitScores events transcript surveys) = traitNames
  /\ Forall (fun t =>
               0 <= score (computeTraitScores events transcript surveys) t
               /\ score (computeTraitScores events transcript surveys) t <= 1)
            traitNames
  /\ match snd (buildPersona testRuns store env runId) with
     | Resolved r =>
         List.map fst (PersonaModel.traitScores (persona r)) = traitNames
         /\ Forall (fun kv => 0 <= snd kv /\ snd kv <= 1)
                   (PersonaModel.traitScores (persona r))
     | Rejected _ => Js.mapGet testRuns runId = None
     end.
Proof.
  split; [apply keys_computeTraitScores|]. split.
  - apply List.Forall_forall. intros t _.
    rewrite computeTraitScores_unfold, score_clamped. apply clamp_range.
  - unfold buildPersona. destruct (Js.mapGet testRuns runId); simpl; [|done].
    split; [apply keys_computeTraitScores | apply scores_clamped].
Qed.

(** C4, as stated, fails: with three matching survey responses and nothing
    else the Confident score is 0.6. *)
Lemma confident_above_half :
  ~ (score (computeTraitScores [] "" [sureOfIt; sureOfIt; sureOfIt])
           "Confident" <= 1 # 2).
Proof. vm_compute. intros H. by apply H. Qed.

(** C4, amended. The Confident score is at most 0.3 + 0.2 k, and at most
    1, where k is the number of survey responses whose question contains
    the word confidence and whose answer contains the word high: every
    such response adds its own 0.2. The bound is 0.5 for k = 1. *)
Theorem confident_score_bound
    (events : list (gmap string Js.JsVal)) (transcript : string)
    (surveys : list Run.SurveyResponse) :
  score (computeTraitScores events transcript surveys) "Confident"
  <= Qmin 1 ((3 # 10)
             + (2 # 10) * inject_Z (Z.of_nat (matchingResponses surveys))).
Proof.
  rewrite confident_score.
  assert (0 <= inject_Z (Z.of_nat (matchingResponses surveys))) as Hk.
  { change 0 with (inject_Z 0). rewrite <- Zle_Qle. lia. }
  apply Q.min_glb; [apply clamp_range|].
  apply clamp_le; destruct (soundsConfident transcript); nra.
Qed.

End ScoreRange.

(** ** Events as the routes store them *)

Section StoredEvents.
Import PersonaService TestsRoutes.
Local Open Scope Q_scope.

Lemma eventObject_untyped (eventName : string) (timestamp : Z)
    (data : Js.JsVal) :
  untyped (eventObject eventName timestamp data).
Proof. unfold untyped, eventObject. by simplify_map_eq. Qed.

Lemma countStep_undefined (acc : gmap string nat) (k : string) :
  k <> "undefined"%string ->
  countStep acc Js.JUndefined !! k = acc !! k.
Proof.
  intros Hk. unfold countStep. simpl. by rewrite lookup_insert_ne.
Qed.

Lemma count_untyped (events : list (gmap string Js.JsVal))
    (acc : gmap string nat) (k : string) :
  Forall untyped events -> k <> "undefined"%string ->
  fold_left countStep
    (List.map (fun e => Js.getProp e "type") events) acc !! k = acc !! k.
Proof.
  intros Hev Hk. revert acc.
  induction Hev as [|e r He _ IH]; intros acc; simpl; [done|].
  rewrite IH. unfold Js.getProp. rewrite He. simpl.
  by apply countStep_undefined.
Qed.

(** Events without a [type] property are all counted under the key
    [undefined]; no rule of the scorer reads that key. *)
Lemma eventCounts_untyped (events : list (gmap string Js.JsVal))
    (k : string) (n : nat) :
  Forall untyped events -> k <> "undefined"%string ->
  countAbove (eventCounts events) k n = false.
Proof.
  intros Hev Hk. unfold countAbove, eventCounts.
  by rewrite count_untyped.
Qed.

(** So the events of a stored run never change a score. *)
Lemma untyped_events_ignored (events : list (gmap string Js.JsVal))
    (transcript : string) (surveys : list Run.SurveyResponse) :
  Forall untyped events ->
  computeTraitScores events transcript surveys
  = computeTraitScores [] transcript surveys.
Proof.
  intros Hev. unfold computeTraitScores.
  by rewrite !eventCounts_untyped.
Qed.

(** C2, the defect. Eleven click events of the stored shape, an empty
    transcript and no survey response: the scorer reads the property
    [type], which such events do not have, counts nothing under click,
    and leaves Practical at 0, below the 0.3 the rule is meant to give. *)
Theorem eleven_stored_clicks_score_zero :
  score (computeTraitScores (storedClicks 11) "" []) "Practical" == 0
  /\ ~ (3 # 10 <= score (computeTraitScores (storedClicks 11) "" [])
                        "Practical").
Proof.
  rewrite untyped_events_ignored
    by (apply List.Forall_forall; intros e He;
        apply repeat_spec in He as ->; apply eventObject_untyped).
  vm_compute. split; [done|]. intros H. by apply H.
Qed.

(** The click rule itself is as the claim describes it, once the events
    carry a [type]: eleven clicks give 0.3, nine give nothing. *)
Lemma typed_clicks_rule :
  score (computeTraitScores (typedClicks 11) "" []) "Practical" == 3 # 10
  /\ score (computeTraitScores (typedClicks 9) "" []) "Practical" == 0
  /\ score (computeTraitScores (storedClicks 9) "" []) "Practical" == 0.
Proof. by vm_compute. Qed.

End StoredEvents.

(** ** The two run maps *)

Section RunMaps.
Import PersonaService TestsRoutes.

(** [Object.assign] between two maps moves no entry. *)
Lemma entries_setTestRuns (testRuns runs : Js.JsMap Run.TestRun) :
  Js.entries (setTestRuns testRuns runs) = Js.entries testRuns.
Proof. reflexivity. Qed.

Lemma mapGet_setTestRuns (testRuns runs : Js.JsMap Run.TestRun)
    (runId : string) :
  Js.mapGet (setTestRuns testRuns runs) runId = Js.mapGet testRuns runId.
Proof. reflexivity. Qed.

Lemma buildPersona_missing (testRuns : Js.JsMap Run.TestRun)
    (store : PersonaModel.PersonaStore) (env : Env) (runId : string) :
  Js.mapGet testRuns runId = None ->
  buildPersona testRuns store env runId = (store, Rejected (notFound runId)).
Proof. intros H. unfold buildPersona. by rewrite H. Qed.

Lemma idle_handle (b : Backend) (r : Request) :
  idle b -> idle (fst (handle b r)).
Proof.
  intros [Hs Hp].
  destruct r as [u run e t d now|u run c now|u run f now|run now env];
    simpl.
  - unfold logTestRunEvent. by destruct (_ || _).
  - unfold updateTestRunTranscript. by destruct (_ || _).
  - unfold handleTestRunAudioUpload.
    destruct (String.eqb run ""); [done|]. by destruct f.
  - unfold finalizeTestRun. destruct (String.eqb run ""); [done|].
    destruct (Js.mapGet (routeRuns b) run) as [testRun|]; [|done].
    rewrite buildPersona_missing
      by (rewrite mapGet_setTestRuns; unfold Js.mapGet; by rewrite Hs).
    done.
Qed.

Lemma idle_serve (rs : list Request) (b : Backend) :
  idle b -> idle (serve b rs).
Proof.
  revert b. induction rs as [|r rs IH]; intros b Hb; [done|].
  apply IH. by apply idle_handle.
Qed.

Lemma idle_initial : idle initial.
Proof. by split. Qed.

(** Whatever requests were served, [buildPersona] finds no run, and a
    finalize request for a run the routes do hold ends in the handler's
    [catch]. *)
Lemma buildPersona_after_requests (rs : list Request) (env : Env)
    (runId : string) :
  buildPersona (serviceRuns (serve initial rs))
               (personaStore (serve initial rs)) env runId
  = (PersonaModel.emptyStore, Rejected (notFound runId)).
Proof.
  destruct (idle_serve rs initial idle_initial) as [Hs Hp].
  rewrite buildPersona_missing by (unfold Js.mapGet; by rewrite Hs).
  by rewrite Hp.
Qed.

Lemma finalize_after_requests (rs : list Request) (runId : string)
    (now : Z) (env : Env) (testRun : Run.TestRun) :
  runId <> ""%string ->
  Js.mapGet (routeRuns (serve initial rs)) runId = Some testRun ->
  snd (finalizeTestRun (serve initial rs) runId now env) = failure 500.
Proof.
  intros Hne Hget. unfold finalizeTestRun.
  apply String.eqb_neq in Hne as ->. rewrite Hget.
  destruct (idle_serve rs initial idle_initial) as [Hs Hp].
  rewrite buildPersona_missing
    by (rewrite mapGet_setTestRuns; unfold Js.mapGet; by rewrite Hs).
  done.
Qed.

(** C1, the defect. A run is populated through the event and transcript
    routes, so a TestRun exists for its id, and is then finalized. The
    handler passes its map to [setTestRuns], which copies own properties
    and no entry; [buildPersona] looks the id up in the service's own,
    still empty, map and rejects with the not-found error; the handler
    answers 500 and no persona is stored. *)
Theorem finalized_run_is_not_found :
  Run.transcript <$> Js.mapGet (routeRuns afterSession) "run-1"
    = Some "I think this is hard and I feel confused."%string
  /\ buildPersona
       (setTestRuns (serviceRuns afterSession) (routeRuns afterSession))
       (personaStore afterSession) env1 "run-1"
     = (PersonaModel.emptyStore, Rejected "Test run run-1 not found")
  /\ snd (finalizeTestRun afterSession "run-1" 3000 env1) = failure 500
  /\ PersonaModel.personas
       (personaStore (fst (finalizeTestRun afterSession "run-1" 3000 env1)))
     = [].
Proof. by vm_compute. Qed.

End RunMaps.

(** ** The assembler *)

Section Assembler.
Import PersonaService TestsRoutes.

(** C6. When the map [buildPersona] consults has no run for the id, the
    call is rejected with the not-found error and returns the persona
    store it was given: the same personas, the same size, the same
    counter. *)
Theorem buildPersona_unknown_run (testRuns : Js.JsMap Run.TestRun)
    (store : PersonaModel.PersonaStore) (env : Env) (runId : string) :
  Js.mapGet testRuns runId = None ->
  snd (buildPersona testRuns store env runId) = Rejected (notFound runId)
  /\ fst (buildPersona testRuns store env runId) = store
  /\ List.length
       (PersonaModel.personas (fst (buildPersona testRuns store env runId)))
     = List.length (PersonaModel.personas store).
Proof. intros H. by rewrite buildPersona_missing. Qed.

Lemma buildPersona_unknown_run_witness :
  Js.mapGet holdingMap "run-9" = None
  /\ snd (buildPersona holdingMap PersonaModel.emptyStore env1 "run-9")
     = Rejected "Test run run-9 not found".
Proof.
  split; [reflexivity|].
  apply (buildPersona_unknown_run holdingMap PersonaModel.emptyStore env1
                                  "run-9").
  reflexivity.
Defined.

(** The same holds towards the routes: an id their map does not hold is
    answered 404 before [buildPersona] is reached, and the persona store
    stays as it was. *)
Lemma finalize_unknown_run (b : Backend) (runId : string) (now : Z)
    (env : Env) :
  Js.mapGet (routeRuns b) runId = None ->
  personaStore (fst (finalizeTestRun b runId now env)) = personaStore b
  /\ success (snd (finalizeTestRun b runId now env)) = false.
Proof.
  intros H. unfold finalizeTestRun.
  destruct (String.eqb runId ""); [done|]. by rewrite H.
Qed.

(** What two calls on a run the service's map held would give: two
    records with consecutive ids and the same derived data. *)
Lemma buildPersona_twice (testRuns : Js.JsMap Run.TestRun)
    (store : PersonaModel.PersonaStore) (e e' : Env) (runId : string)
    (run : Run.TestRun) :
  Js.mapGet testRuns runId = Some run ->
  exists s1 r1 s2 r2,
    buildPersona testRuns store e runId = (s1, Resolved r1)
    /\ buildPersona testRuns s1 e' runId = (s2, Resolved r2)
    /\ PersonaService.personaId r1 <> PersonaService.personaId r2
    /\ PersonaModel.traitScores (persona r1)
       = PersonaModel.traitScores (persona r2)
    /\ PersonaModel.painPoints (persona r1)
       = PersonaModel.painPoints (persona r2)
    /\ PersonaModel.quotes (persona r1) = PersonaModel.quotes (persona r2)
    /\ PersonaModel.personas s2
       = PersonaModel.personas store ++ [persona r1; persona r2].
Proof.
  intros H. unfold buildPersona. rewrite H. simpl.
  do 4 eexists. repeat split.
  - simpl. intros Heq. apply natToString_inj in Heq. lia.
  - simpl. by rewrite <- List.app_assoc.
Qed.

(** C8, the defect (the one of C1). The run of the session has been
    finalized, so the handler has handed its map to the service, and
    [buildPersona] is then called twice on the run id with nothing in
    between. Both calls are rejected with the not-found error and the
    persona store holds no record afterwards, where the claim expects two
    records with equal scores. *)
Theorem finalizing_twice_builds_no_persona :
  let b := fst (finalizeTestRun afterSession "run-1" 3000 env1) in
  let first := buildPersona (serviceRuns b) (personaStore b) env1 "run-1" in
  let second := buildPersona (serviceRuns b) (fst first) env2 "run-1" in
  Run.finalized <$> Js.mapGet (routeRuns b) "run-1" = Some true
  /\ snd first = Rejected "Test run run-1 not found"
  /\ snd second = Rejected "Test run run-1 not found"
  /\ PersonaModel.personas (fst second) = [].
Proof. by vm_compute. Qed.

End Assembler.

(** ** The persona store *)

Section StoreFacts.
Import PersonaModel.

Lemma idNumber_natToString (p : Persona) (n : nat) :
  id p = JsString.natToString n -> idNumber p = n.
Proof.
  intros H. unfold idNumber. rewrite H. unfold JsString.natToString.
  rewrite NilZero.usu by apply to_uint_nonnil.
  apply DecimalNat.Unsigned.of_to.
Qed.

Lemma idNumber_same_id (p q : Persona) : id p = id q -> idNumber p = idNumber q.
Proof. unfold idNumber. by intros ->. Qed.

Lemma sorted_lt_NoDup (ns : list nat) : StronglySorted lt ns -> NoDup ns.
Proof.
  induction 1 as [|n ns _ IH Hn]; constructor; [|done].
  intros Hin. rewrite List.Forall_forall in Hn.
  apply list_elem_of_In, Hn in Hin. lia.
Qed.

Lemma wellNumbered_NoDup (st : PersonaStore) :
  wellNumbered st -> NoDup (List.map id (personas st)).
Proof.
  intros (_ & Hs & _). apply sorted_lt_NoDup in Hs.
  revert Hs. generalize (personas st). intros ps.
  induction ps as [|p ps IH]; simpl; [constructor|].
  rewrite !NoDup_cons. intros [Hp Hl]. split; [|by apply IH].
  intros Hin. apply Hp.
  apply list_elem_of_In, List.in_map_iff in Hin as (q & Hq & Hin).
  apply list_elem_of_In, List.in_map_iff. exists q. split; [|done].
  by apply idNumber_same_id.
Qed.

Lemma wellNumbered_empty : wellNumbered emptyStore.
Proof. repeat split; simpl; constructor. Qed.

Lemma wellNumbered_create (st : PersonaStore) (data : PersonaData)
    (now1 now2 : Z) :
  wellNumbered st -> wellNumbered (fst (create st data now1 now2)).
Proof.
  intros (H1 & Hs & Hb). unfold create, wellNumbered. simpl.
  set (p := mkPersona _ _ _ _ _ _ _ _ _).
  assert (idNumber p = nextId st) as Hp by by apply idNumber_natToString.
  split; [lia|]. split.
  - rewrite List.map_app. apply StronglySorted_app.
    split; [|split; [done|repeat constructor]].
    intros a b Ha Hb'. apply list_elem_of_In in Hb' as [<-|[]].
    apply list_elem_of_In, List.in_map_iff in Ha as (q & <- & Hq).
    rewrite List.Forall_forall in Hb. apply Hb in Hq. simpl. lia.
  - apply Forall_app. split.
    + eapply Forall_impl; [exact Hb|]. simpl. intros q [? ?]. split; [done|lia].
    + constructor; [|constructor]. rewrite Hp. split; [done|lia].
Qed.

Lemma idNumbers_updateFirst (i : string) (u : PersonaUpdates) (now : Z)
    (l : list Persona) :
  List.map idNumber (updateFirst i u now l) = List.map idNumber l.
Proof.
  induction l as [|p r IH]; simpl; [done|].
  destruct (String.eqb (id p) i); simpl; by rewrite ?IH.
Qed.

Lemma Forall_updateFirst (P : Persona -> Prop) (i : string)
    (u : PersonaUpdates) (now : Z) (l : list Persona) :
  (forall p, P p -> P (applyUpdates p u now)) ->
  Forall P l -> Forall P (updateFirst i u now l).
Proof.
  intros HP. induction 1 as [|p r Hp Hr IH]; simpl; [constructor|].
  destruct (String.eqb (id p) i); constructor; auto.
Qed.

Lemma wellNumbered_update (st : PersonaStore) (i : string)
    (u : PersonaUpdates) (now : Z) :
  wellNumbered st -> wellNumbered (fst (update st i u now)).
Proof.
  intros (H1 & Hs & Hb). unfold update.
  destruct (Js.find _ (personas st)); [|by repeat split].
  split; [done|]. split; simpl.
  - by rewrite idNumbers_updateFirst.
  - by apply Forall_updateFirst.
Qed.

(** [delete] takes one element out and leaves the others where they
    were. *)
Lemma removeFirst_split (i : string) (l : list Persona) :
  removeFirst i l = l
  \/ exists l1 p l2, l = l1 ++ p :: l2 /\ removeFirst i l = l1 ++ l2.
Proof.
  induction l as [|p r IH]; simpl; [by left|].
  destruct (String.eqb (id p) i).
  - right. by exists [], p, r.
  - destruct IH as [->|(l1 & q & l2 & -> & ->)]; [by left|].
    right. by exists (p :: l1), q, l2.
Qed.

Lemma wellNumbered_delete (st : PersonaStore) (i : string) :
  wellNumbered st -> wellNumbered (fst (delete st i)).
Proof.
  intros (Hn & Hs & Hb). unfold delete.
  destruct (Js.find _ (personas st)) as [found|]; [|by repeat split].
  split; [done|].
  destruct (removeFirst_split i (personas st))
    as [Heq|(l1 & q & l2 & Hl & Heq)];
    split; simpl; rewrite Heq; try done.
  - rewrite Hl, List.map_app in Hs. simpl in Hs.
    rewrite List.map_app.
    apply StronglySorted_app in Hs as (H12 & H1 & H2).
    apply StronglySorted_app. split; [|split; [done|]].
    + intros a b Ha Hb'. apply H12; [done|]. by right.
    + by apply StronglySorted_inv in H2 as [? _].
  - rewrite Hl in Hb. apply Forall_app in Hb as [H1 H2].
    apply Forall_app. split; [done|]. by apply Forall_inv_tail in H2.
Qed.

Lemma wellNumbered_step (st : PersonaStore) (op : StoreOp) :
  wellNumbered st -> wellNumbered (fst (storeStep st op)).
Proof.
  destruct op; simpl.
  - apply wellNumbered_create.
  - apply wellNumbered_update.
  - apply wellNumbered_delete.
Qed.

(** A sequence of calls hands out the counter values from [nextId] on,
    one per [create], and keeps the store well numbered. *)
Lemma storeRun_cons (st : PersonaStore) (op : StoreOp)
    (rest : list StoreOp) :
  storeRun st (op :: rest)
  = (fst (storeRun (fst (storeStep st op)) rest),
     snd (storeStep st op) ++ snd (storeRun (fst (storeStep st op)) rest)).
Proof.
  change (storeRun st (op :: rest))
    with (let '(st', made) := storeStep st op in
          let '(st'', made') := storeRun st' rest in
          (st'', made ++ made')).
  destruct (storeStep st op) as [st' made]. simpl fst. simpl snd.
  by destruct (storeRun st' rest).
Qed.

Lemma storeStep_numbers (st : PersonaStore) (op : StoreOp) :
  nextId (fst (storeStep st op))
  = nextId st + List.length (snd (storeStep st op))
  /\ List.map id (snd (storeStep st op))
     = List.map JsString.natToString
         (seq (nextId st) (List.length (snd (storeStep st op)))).
Proof.
  destruct op as [data now1 now2|i u now|i]; simpl.
  - split; [lia|reflexivity].
  - unfold update. destruct (Js.find _ _); simpl; split; lia || reflexivity.
  - unfold delete. destruct (Js.find _ _); simpl; split; lia || reflexivity.
Qed.

(** A sequence of calls hands out the counter values from [nextId] on,
    one per [create], and keeps the store well numbered. *)
Lemma storeRun_numbers (ops : list StoreOp) (st : PersonaStore) :
  nextId (fst (storeRun st ops))
  = nextId st + List.length (snd (storeRun st ops))
  /\ List.map id (snd (storeRun st ops))
     = List.map JsString.natToString
         (seq (nextId st) (List.length (snd (storeRun st ops))))
  /\ (wellNumbered st -> wellNumbered (fst (storeRun st ops))).
Proof.
  revert st. induction ops as [|op rest IH]; intros st.
  - simpl. split; [lia|]. by split.
  - rewrite storeRun_cons. simpl fst. simpl snd.
    destruct (storeStep_numbers st op) as (Hn & Hids).
    destruct (IH (fst (storeStep st op))) as (Hn' & Hids' & Hw).
    rewrite List.length_app, List.map_app, List.seq_app, List.map_app.
    split; [lia|]. split.
    + by rewrite Hids, Hids', Hn.
    + intros H. by apply Hw, wellNumbered_step.
Qed.

End StoreFacts.

Section StoreClaims.
Import PersonaModel.

Lemma idNumbers_of_ids (l : list Persona) (ns : list nat) :
  List.map id l = List.map JsString.natToString ns ->
  List.map idNumber l = ns.
Proof.
  revert ns. induction l as [|p l IH]; intros [|n ns]; simpl; try done.
  intros [= Hp Hl]. f_equal; [by apply idNumber_natToString | by apply IH].
Qed.

(** C9. From the empty store, under any sequence of [create], [update]
    and [delete] calls: the personas ever created carry, in the order of
    their creation, the decimal strings of 1, 2, 3, ...; no two of them
    share an id; the counter stands one above their number, so it started
    at 1, went up by one with each [create] and never went down; and the
    personas still stored have pairwise different ids, all of them among
    the ids handed out. *)
Theorem persona_ids_unique_and_increasing (ops : list StoreOp) :
  let st := fst (storeRun emptyStore ops) in
  let made := snd (storeRun emptyStore ops) in
  List.map id made
  = List.map JsString.natToString (seq 1 (List.length made))
  /\ List.map idNumber made = seq 1 (List.length made)
  /\ NoDup (List.map id made)
  /\ nextId st = S (List.length made)
  /\ NoDup (List.map id (personas st))
  /\ Forall (fun p => In (id p) (List.map id made)) (personas st).
Proof.
  intros st made.
  destruct (storeRun_numbers ops emptyStore) as (Hn & Hids & Hw).
  fold st in Hn, Hw. fold made in Hn, Hids. simpl in Hn, Hids.
  specialize (Hw wellNumbered_empty).
  split; [done|]. split; [by apply idNumbers_of_ids|].
  split; [|split; [done|split; [by apply wellNumbered_NoDup|]]].
  - rewrite Hids.
    assert (Inj eq eq JsString.natToString) as Hinj
      by (intros n m; apply natToString_inj).
    apply (NoDup_fmap_2 JsString.natToString), NoDup_seq.
  - destruct Hw as (_ & _ & Hb). eapply Forall_impl; [exact Hb|].
    simpl. intros p [Hp Hr]. rewrite Hp, Hids.
    apply List.in_map, List.in_seq. lia.
Qed.

Lemma find_split {A : Type} (f : A -> bool) (l : list A) :
  match Js.find f l with
  | Some p => f p = true
              /\ exists l1 l2, l = l1 ++ p :: l2
                               /\ Forall (fun q => f q = false) l1
  | None => Forall (fun q => f q = false) l
  end.
Proof.
  unfold Js.find. induction l as [|x r IH]; simpl; [constructor|].
  destruct (f x) eqn:E.
  - split; [done|]. exists [], r. by split.
  - destruct (List.find f r) as [p|].
    + destruct IH as (Hp & l1 & l2 & -> & H1).
      split; [done|]. exists (x :: l1), l2. split; [done|by constructor].
    + by constructor.
Qed.

Lemma newerFirst_asym (a b : Persona) :
  newerFirst a b = true -> newerFirst b a = false.
Proof. unfold newerFirst. lia. Qed.

Lemma newerFirst_keep (a b c : Persona) :
  newerFirst a b = false -> newerFirst b c = false ->
  newerFirst a c = false.
Proof. unfold newerFirst. lia. Qed.

Lemma front_none {A : Type} (after : A -> A -> bool) (l : list A) :
  front after l = None -> l = [].
Proof. destruct l as [|x r]; simpl; [done|]. by destruct (front after r). Qed.

Lemma sorted_weaken {A : Type} (R S : A -> A -> Prop) (l : list A) :
  (forall a b, R a b -> S a b) ->
  StronglySorted R l -> StronglySorted S l.
Proof.
  intros HRS. induction 1 as [|x r _ IH Hx]; constructor; [done|].
  eapply Forall_impl; [exact Hx|]. auto.
Qed.

(** C10. In a store reached from the empty one, [getByRunId] returns the
    persona of that run that comes first in the array, and every later
    persona was created after it (has a larger counter value); it returns
    nothing only when no stored persona has that run id. [getByUserId]
    returns exactly the personas of the user, newest first by
    [createdAt], and [getLatestByUserId] returns the head of that list, a
    persona of the user that no other persona of the user is newer
    than. *)
Theorem lookups_by_run_and_by_user (ops : list StoreOp) (r u : string) :
  let st := fst (storeRun emptyStore ops) in
  match getByRunId st r with
  | Some p =>
      runId p = r
      /\ exists l1 l2, personas st = l1 ++ p :: l2
           /\ Forall (fun q => runId q <> r) l1
           /\ Forall (fun q => idNumber p < idNumber q) l2
  | None => Forall (fun q => runId q <> r) (personas st)
  end
  /\ getByUserId st u
     ≡ₚ List.filter (fun p => String.eqb (userId p) u) (personas st)
  /\ StronglySorted (fun a b => (createdAt b <= createdAt a)%Z)
                    (getByUserId st u)
  /\ getLatestByUserId st u = head (getByUserId st u)
  /\ match getLatestByUserId st u with
     | Some p =>
         userId p = u /\ In p (personas st)
         /\ Forall (fun q => userId q = u -> (createdAt q <= createdAt p)%Z)
                   (personas st)
     | None => Forall (fun q => userId q <> u) (personas st)
     end.
Proof.
  intros st.
  destruct (storeRun_numbers ops emptyStore) as (_ & _ & Hw).
  specialize (Hw wellNumbered_empty). fold st in Hw.
  destruct Hw as (_ & Hs & _).
  split; [|split; [|split; [|split]]].
  - unfold getByRunId.
    pose proof (find_split (fun p => String.eqb (runId p) r) (personas st))
      as Hf.
    destruct (Js.find _ (personas st)) as [p|].
    + destruct Hf as (Hp & l1 & l2 & Hl & H1).
      split; [by apply String.eqb_eq|]. exists l1, l2.
      split; [done|]. split.
      * eapply Forall_impl; [exact H1|]. intros q. apply String.eqb_neq.
      * rewrite Hl, List.map_app in Hs.
        apply StronglySorted_app in Hs as (_ & _ & Hs). simpl in Hs.
        apply StronglySorted_inv in Hs as [_ Hs].
        by rewrite List.Forall_map in Hs.
    + eapply Forall_impl; [exact Hf|]. intros q. apply String.eqb_neq.
  - apply sortBy_perm.
  - eapply sorted_weaken;
      [|apply sortBy_sorted; [apply newerFirst_asym|apply newerFirst_keep]].
    intros a b. unfold newerFirst. lia.
  - reflexivity.
  - unfold getLatestByUserId. rewrite head_sortBy.
    set (mine := List.filter _ (personas st)).
    destruct (front newerFirst mine) as [p|] eqn:Hfront.
    + destruct (front_first_best newerFirst newerFirst_asym newerFirst_keep
                  mine p Hfront) as (l1 & l2 & Hl & H1 & H2).
      assert (In p mine) as Hin by (rewrite Hl; apply List.in_elt).
      apply List.filter_In in Hin as [Hin Hu].
      split; [by apply String.eqb_eq|]. split; [done|].
      apply List.Forall_forall. intros q Hq Hqu.
      assert (In q mine) as Hqm.
      { apply List.filter_In. split; [done|]. by apply String.eqb_eq. }
      rewrite Hl in Hqm. apply List.in_app_or in Hqm as [Hq1|[<-|Hq2]].
      * rewrite List.Forall_forall in H1. apply H1 in Hq1.
        unfold newerFirst in Hq1. lia.
      * lia.
      * rewrite List.Forall_forall in H2. apply H2 in Hq2.
        unfold newerFirst in Hq2. lia.
    + apply front_none in Hfront. apply List.Forall_forall.
      intros q Hq Hqu.
      assert (In q mine) as Hqm.
      { apply List.filter_In. split; [done|]. by apply String.eqb_eq. }
      by rewrite Hfront in Hqm.
Qed.

End StoreClaims.

(** ** The name generator *)

Section NameFacts.
Import PersonaService.
Local Open Scope Q_scope.

Lemma higherFirst_lt (x y : string * Q) :
  higherFirst x y = true <-> snd x < snd y.
Proof.
  unfold higherFirst. destruct (0 ?= snd y - snd x) eqn:E.
  - apply Qeq_alt in E. split; [done|]. lra.
  - apply Qlt_alt in E. split; [lra|done].
  - apply Qgt_alt in E. split; [done|]. lra.
Qed.

Lemma higherFirst_ge (x y : string * Q) :
  higherFirst x y = false <-> snd y <= snd x.
Proof.
  pose proof (higherFirst_lt x y) as H.
  destruct (higherFirst x y); split; try done.
  - intros Hle. assert (snd x < snd y) by by apply H. lra.
  - intros _. apply Qnot_lt_le. intros Hlt. by apply H in Hlt.
Qed.

Lemma higherFirst_asym (x y : string * Q) :
  higherFirst x y = true -> higherFirst y x = false.
Proof. rewrite higherFirst_lt, higherFirst_ge. lra. Qed.

Lemma higherFirst_keep (x y z : string * Q) :
  higherFirst x y = false -> higherFirst y z = false ->
  higherFirst x z = false.
Proof. rewrite !higherFirst_ge. lra. Qed.

(** [Math.random()] lies in [0, 1), so the index lies in the array. *)
Lemma pickName_in_names (random : Q) :
  0 <= random -> random < 1 ->
  In (pickName random) names
  /\ names !! Z.to_nat (Qfloor (random * 16)) = Some (pickName random).
Proof.
  intros H0 H1. unfold pickName.
  change (inject_Z (Z.of_nat (List.length names))) with 16.
  set (i := Qfloor (random * 16)).
  assert (0 <= i)%Z as Hlo.
  { change 0%Z with (Qfloor 0). apply Qfloor_resp_le. lra. }
  assert (i < 16)%Z as Hhi.
  { rewrite Zlt_Qlt. eapply Qle_lt_trans; [apply Qfloor_le|].
    change (inject_Z 16) with 16. lra. }
  destruct (i <? 0)%Z eqn:E; [lia|].
  destruct (names !! Z.to_nat i) as [n|] eqn:Hn.
  - split; [|done]. simpl default.
    by apply list_elem_of_lookup_2, list_elem_of_In in Hn.
  - apply lookup_ge_None in Hn. simpl in Hn. lia.
Qed.

Lemma traitName_lower_nonempty (t : string) :
  In t traitNames -> String.eqb (JsString.toLowerCase t) "" = false.
Proof.
  simpl. intros H.
  repeat (destruct H as [<-|H]; [reflexivity|]). done.
Qed.

(** C7. For scores over the eight fixed traits, in whatever order the
    object lists them, and a random number in
    [0, 1), the generated name is one of the sixteen first names (the one
    at index floor(16 random)), the word the between two blanks, and the
    lower-cased name
    of one of the eight traits; that trait has the maximal score and is
    the first such in insertion order: every entry before it scores
    strictly less, no entry after it scores more. *)
Theorem persona_name_shape (traitScores : list (string * Q)) (random : Q) :
  List.map fst traitScores ≡ₚ traitNames ->
  0 <= random -> random < 1 ->
  exists randomName t v l1 l2,
    names !! Z.to_nat (Qfloor (random * 16)) = Some randomName
    /\ In randomName names
    /\ In t traitNames
    /\ generatePersonaName traitScores random
       = (randomName ++ " the " ++ JsString.toLowerCase t)%string
    /\ traitScores = l1 ++ (t, v) :: l2
    /\ Forall (fun kv => snd kv < v) l1
    /\ Forall (fun kv => snd kv <= v) l2.
Proof.
  intros Hkeys H0 H1.
  destruct (pickName_in_names random H0 H1) as [Hin Hidx].
  destruct (front higherFirst traitScores) as [[t v]|] eqn:Hfront;
    [|apply front_none in Hfront; subst;
      by apply Permutation_nil in Hkeys].
  destruct (front_first_best higherFirst higherFirst_asym higherFirst_keep
              traitScores (t, v) Hfront) as (l1 & l2 & Hl & Hb & Ha).
  assert (In t traitNames) as Ht.
  { apply (Permutation_in _ Hkeys). rewrite Hl, List.map_app.
    apply List.in_elt. }
  exists (pickName random), t, v, l1, l2.
  split; [done|]. split; [done|]. split; [done|]. split.
  - unfold generatePersonaName. rewrite <- head_sortBy in Hfront.
    destruct (Js.sortBy higherFirst traitScores) as [|top rest];
      [done|]. simpl in Hfront. injection Hfront as ->. simpl.
    by rewrite traitName_lower_nonempty.
  - split; [done|]. split.
    + eapply Forall_impl; [exact Hb|]. intros kv. apply higherFirst_lt.
    + eapply Forall_impl; [exact Ha|]. intros kv.
      by rewrite higherFirst_ge.
Qed.

Lemma persona_name_shape_witness :
  exists randomName t v l1 l2,
    names !! Z.to_nat (Qfloor ((1 # 4) * 16)) = Some randomName
    /\ In randomName names
    /\ In t traitNames
    /\ generatePersonaName teamScores (1 # 4)
       = (randomName ++ " the " ++ JsString.toLowerCase t)%string
    /\ teamScores = l1 ++ (t, v) :: l2
    /\ Forall (fun kv => snd kv < v) l1
    /\ Forall (fun kv => snd kv <= v) l2.
Proof.
  apply (persona_name_shape teamScores (1 # 4)).
  - reflexivity.
  - vm_compute. discriminate.
  - reflexivity.
Defined.

End NameFacts.

(** ** The pain point extractor *)

Section PainPoints.
Import PersonaService.

Lemma painStep_painful (acc : list string) (sentence : string) :
  painStep acc sentence
  = if painful sentence then acc ++ [cleaned sentence] else acc.
Proof.
  unfold painStep, painful, hasPainKeyword, cleaned.
  by destruct (existsb _ painKeywords).
Qed.

(** The [forEach] with its [push] collects, in order, the cleaned forms
    of the sentences that pass the test. *)
Lemma painSteps_collect (sentences acc : list string) :
  fold_left painStep sentences acc
  = acc ++ List.map cleaned (List.filter painful sentences).
Proof.
  revert acc. induction sentences as [|s r IH]; intros acc; simpl.
  - by rewrite List.app_nil_r.
  - rewrite IH, painStep_painful. destruct (painful s); [|done].
    simpl. by rewrite <- List.app_assoc.
Qed.

Lemma filter_implied {A : Type} (f g : A -> bool) (l : list A) :
  (forall x, f x = true -> g x = true) ->
  List.filter f (List.filter g l) = List.filter f l.
Proof.
  intros Hfg. induction l as [|x r IH]; simpl; [done|].
  destruct (g x) eqn:Eg; simpl; [by rewrite IH|].
  destruct (f x) eqn:Ef; [|done].
  apply Hfg in Ef. congruence.
Qed.

(** A fragment that passes the test is longer than 10 characters after
    trimming: the first filter of the code never decides anything. *)
Lemma painful_long (s : string) :
  painful s = true -> (10 <? String.length (JsString.trim s))%nat = true.
Proof.
  unfold painful, cleaned. intros H.
  apply andb_true_iff in H as [_ H]. apply andb_true_iff in H as [H _].
  apply Nat.ltb_lt in H. apply Nat.ltb_lt.
  pose proof (length_stripQuotes_le (JsString.trim s)). lia.
Qed.

Lemma painful_keyword (s : string) :
  painful s = true -> hasPainKeyword s = true.
Proof. unfold painful. intros H. by apply andb_true_iff in H as [H _]. Qed.

Lemma filter_none {A : Type} (f g : A -> bool) (l : list A) :
  (forall x, f x = true -> g x = true) ->
  existsb g l = false -> List.filter f l = [].
Proof.
  intros Hfg. induction l as [|x r IH]; simpl; [done|].
  intros H. apply orb_false_iff in H as [Hx Hr].
  destruct (f x) eqn:Ef; [|by apply IH].
  apply Hfg in Ef. congruence.
Qed.

(** C5, as stated, fails at the lower bound: a sentence of exactly 10
    characters with a pain keyword is within the stated bounds, but the
    code drops it. *)
Lemma ten_character_sentence_dropped :
  extractPainPoints "it is hard" = []
  /\ extractPainPoints_asSpecified "it is hard" = ["it is hard"%string]
  /\ extractPainPoints "it is hard"
     <> extractPainPoints_asSpecified "it is hard".
Proof. by vm_compute. Qed.

(** C5, amended. The extractor returns, in transcript order, the first at
    most 3 cleaned sentences among the fragments between runs of [.], [!]
    and [?] that are longer than 10 characters after trimming, contain a
    pain keyword when lower-cased, and whose cleaned length is strictly
    between 10 and 200 (11 to 199 characters). The fragment filter is
    implied by the length test. It is total, returns at most 3 sentences,
    each of 11 to 199 characters, and returns the empty list when no
    fragment contains a pain keyword. *)
Theorem pain_points_selection (transcript : string) :
  extractPainPoints transcript
  = firstn 3
      (List.map cleaned
         (List.filter painful
            (List.filter
               (fun s => (10 <? String.length (JsString.trim s))%nat)
               (JsString.splitSentences transcript))))
  /\ extractPainPoints transcript
     = firstn 3
         (List.map cleaned
            (List.filter painful (JsString.splitSentences transcript)))
  /\ List.length (extractPainPoints transcript) <= 3
  /\ Forall (fun p => 10 < String.length p < 200)
            (extractPainPoints transcript)
  /\ (existsb hasPainKeyword (JsString.splitSentences transcript) = false
      -> extractPainPoints transcript = []).
Proof.
  assert (extractPainPoints transcript
          = firstn 3
              (List.map cleaned
                 (List.filter painful
                    (List.filter
                       (fun s => (10 <? String.length (JsString.trim s))%nat)
                       (JsString.splitSentences transcript))))) as E1.
  { unfold extractPainPoints, Js.slice0. by rewrite painSteps_collect. }
  assert (extractPainPoints transcript
          = firstn 3
              (List.map cleaned
                 (List.filter painful
                    (JsString.splitSentences transcript)))) as E2.
  { rewrite E1. by rewrite (filter_implied _ _ _ painful_long). }
  split; [done|]. split; [done|]. split; [|split].
  - rewrite E2. rewrite List.length_firstn. lia.
  - rewrite E2. apply Forall_take, List.Forall_map.
    apply List.Forall_forall. intros s Hs.
    apply List.filter_In in Hs as [_ Hs]. unfold painful in Hs.
    apply andb_true_iff in Hs as [_ Hs].
    apply andb_true_iff in Hs as [Hlo Hhi].
    apply Nat.ltb_lt in Hlo, Hhi. done.
  - intros Hnone. rewrite E2.
    by rewrite (filter_none _ _ _ painful_keyword Hnone).
Qed.

Lemma pain_points_selection_witness :
  existsb hasPainKeyword
    (JsString.splitSentences
       "Everything went fine today. I liked the layout a lot!") = false
  /\ extractPainPoints
       "Everything went fine today. I liked the layout a lot!" = [].
Proof.
  split; [reflexivity|].
  apply (pain_points_selection
           "Everything went fine today. I liked the layout a lot!").
  reflexivity.
Defined.

End PainPoints.

(** * Further properties of the code *)

(** ** The quote extractor *)

Section Quotes.
Import PersonaService.

Lemma quoteStep_quotable (acc : list string) (sentence : string) :
  quoteStep acc sentence
  = if quotable sentence then acc ++ [cleaned sentence] else acc.
Proof.
  unfold quoteStep, quotable, soundsPersonal, cleaned.
  destruct (_ && _); [|done]. simpl. by destruct (_ || _).
Qed.

Lemma quoteSteps_collect (sentences acc : list string) :
  fold_left quoteStep sentences acc
  = acc ++ List.map cleaned (List.filter quotable sentences).
Proof.
  revert acc. induction sentences as [|s r IH]; intros acc; simpl.
  - by rewrite List.app_nil_r.
  - rewrite IH, quoteStep_quotable. destruct (quotable s); [|done].
    simpl. by rewrite <- List.app_assoc.
Qed.

Lemma quotable_long (s : string) :
  quotable s = true -> (15 <? String.length (JsString.trim s))%nat = true.
Proof.
  unfold quotable, cleaned. intros H.
  apply andb_true_iff in H as [H _]. apply andb_true_iff in H as [H _].
  apply Nat.ltb_lt in H. apply Nat.ltb_lt.
  pose proof (length_stripQuotes_le (JsString.trim s)). lia.
Qed.

(** X1. [extractQuotes] returns, in transcript order, the first at most 5
    cleaned fragments whose cleaned length is strictly between 20 and 150
    and whose lower-cased cleaned text contains a first-person marker; the
    fragment filter on the trimmed length is implied by that test. Every
    quote returned is 21 to 149 characters long and contains a marker. *)
Theorem quotes_selection (transcript : string) :
  extractQuotes transcript
  = firstn 5
      (List.map cleaned
         (List.filter quotable (JsString.splitSentences transcript)))
  /\ List.length (extractQuotes transcript) <= 5
  /\ Forall (fun q => 20 < String.length q < 150
                      /\ soundsPersonal (JsString.toLowerCase q) = true)
            (extractQuotes transcript).
Proof.
  assert (extractQuotes transcript
          = firstn 5
              (List.map cleaned
                 (List.filter quotable
                    (JsString.splitSentences transcript)))) as E.
  { unfold extractQuotes, Js.slice0. rewrite quoteSteps_collect. simpl.
    by rewrite (filter_implied _ _ _ quotable_long). }
  split; [done|]. rewrite E. split.
  - rewrite List.length_firstn. lia.
  - apply Forall_take, List.Forall_map, List.Forall_forall. intros s Hs.
    apply List.filter_In in Hs as [_ Hs]. unfold quotable in Hs.
    apply andb_true_iff in Hs as [Hlen Hm].
    apply andb_true_iff in Hlen as [Hlo Hhi].
    apply Nat.ltb_lt in Hlo, Hhi. done.
Qed.

End Quotes.

(** ** Counting events by type *)

Section Counting.
Import PersonaService.

Lemma countStep_lookup (acc : gmap string nat) (v : Js.JsVal) (k : string) :
  Js.isObjectPrototypeKey k = false ->
  countStep acc v !! k
  = if String.eqb (Js.toPropertyKey v) k
    then Some (S (default 0 (acc !! k)))
    else acc !! k.
Proof.
  intros Hk. unfold countStep.
  destruct (String.eqb_spec (Js.toPropertyKey v) k) as [E|Hne].
  - rewrite E, Hk. apply lookup_insert_eq.
  - destruct (Js.isObjectPrototypeKey (Js.toPropertyKey v)); [done|].
    by apply lookup_insert_ne.
Qed.

Lemma countStep_inherited (acc : gmap string nat) (v : Js.JsVal)
    (k : string) :
  Js.isObjectPrototypeKey k = true -> countStep acc v !! k = acc !! k.
Proof.
  intros Hk. unfold countStep.
  destruct (Js.isObjectPrototypeKey (Js.toPropertyKey v)) eqn:E; [done|].
  apply lookup_insert_ne. intros Heq. rewrite Heq in E. congruence.
Qed.

Lemma count_fold (events : list (gmap string Js.JsVal))
    (acc : gmap string nat) (k : string) :
  Js.isObjectPrototypeKey k = false ->
  fold_left countStep (List.map (fun e => Js.getProp e "type") events) acc
    !! k
  = match countType k events with
    | 0 => acc !! k
    | S n => Some (S n + default 0 (acc !! k))
    end.
Proof.
  intros Hk. revert acc.
  induction events as [|e r IH]; intros acc; [done|].
  simpl fold_left. rewrite IH, countStep_lookup by done.
  unfold countType. simpl List.filter. fold (typeKey e).
  destruct (String.eqb (typeKey e) k); simpl List.length.
  - fold (countType k r). destruct (countType k r); simpl; f_equal; lia.
  - done.
Qed.

Lemma count_fold_inherited (events : list (gmap string Js.JsVal))
    (acc : gmap string nat) (k : string) :
  Js.isObjectPrototypeKey k = true ->
  fold_left countStep (List.map (fun e => Js.getProp e "type") events) acc
    !! k = acc !! k.
Proof.
  intros Hk. revert acc.
  induction events as [|e r IH]; intros acc; [done|].
  simpl fold_left. by rewrite IH, countStep_inherited.
Qed.

Lemma countAbove_count (events : list (gmap string Js.JsVal)) (k : string)
    (n : nat) :
  Js.isObjectPrototypeKey k = false ->
  countAbove (eventCounts events) k n = (n <? countType k events)%nat.
Proof.
  intros Hk. unfold countAbove, eventCounts. rewrite count_fold by done.
  destruct (countType k events) as [|c]; simpl.
  - rewrite lookup_empty. by destruct n.
  - rewrite lookup_empty. simpl. by rewrite Nat.add_0_r.
Qed.

(** X2. The [reduce] of the scorer counts events by the property key of
    their [type]: under a key that is not inherited from
    [Object.prototype] the count object holds the number of events with
    that key, and no entry when there is none; under an inherited key it
    never holds a number. A threshold test on a key compares the threshold
    with that number. *)
Theorem events_counted_by_type (events : list (gmap string Js.JsVal))
    (k : string) (n : nat) :
  eventCounts events !! k
  = (if Js.isObjectPrototypeKey k then None
     else match countType k events with
          | 0 => None
          | S c => Some (S c)
          end)
  /\ countAbove (eventCounts events) k n
     = (if Js.isObjectPrototypeKey k then false
        else (n <? countType k events)%nat).
Proof.
  destruct (Js.isObjectPrototypeKey k) eqn:Hk.
  - unfold countAbove, eventCounts.
    rewrite count_fold_inherited by done. by rewrite lookup_empty.
  - split; [|by apply countAbove_count].
    unfold eventCounts. rewrite count_fold by done.
    destruct (countType k events); rewrite lookup_empty; [done|].
    simpl. by rewrite Nat.add_0_r.
Qed.

End Counting.

(** ** The scorer in closed form *)

Section ClosedForm.
Import PersonaService.
Local Open Scope Q_scope.

Lemma other_surveyStep (s : list (string * Q)) (r : Run.SurveyResponse)
    (k : string) :
  k <> "Confident"%string -> k <> "Creative"%string ->
  score (surveyStep s r) k = score s k.
Proof.
  intros H1 H2. unfold surveyStep.
  repeat match goal with
         | |- context [if ?b then _ else _] => destruct b
         end; by rewrite ?score_addScore_other.
Qed.

Lemma other_surveys (rs : list Run.SurveyResponse) (s : list (string * Q))
    (k : string) :
  k <> "Confident"%string -> k <> "Creative"%string ->
  score (fold_left surveyStep rs s) k = score s k.
Proof.
  intros H1 H2. revert s. induction rs as [|r rs IH]; intros s; [done|].
  simpl. by rewrite IH, other_surveyStep.
Qed.

Lemma creative_surveyStep (s : list (string * Q)) (r : Run.SurveyResponse) :
  In "Creative"%string (List.map fst s) ->
  score (surveyStep s r) "Creative"
  = if prefersCreative r then score s "Creative" + (2 # 10)
    else score s "Creative".
Proof.
  intros Hin. unfold surveyStep, prefersCreative.
  destruct (negb (String.eqb (Run.question r) "")); simpl; [|done].
  destruct (negb (String.eqb (Run.answer r) "")); simpl; [|done].
  repeat match goal with
         | |- context [JsString.includes ?a ?b] =>
             destruct (JsString.includes a b)
         end; simpl;
    rewrite ?score_addScore_same by (by rewrite ?keys_addScore);
    rewrite ?score_addScore_other by done; done.
Qed.

Lemma creative_surveys (rs : list Run.SurveyResponse)
    (s : list (string * Q)) :
  In "Creative"%string (List.map fst s) ->
  score (fold_left surveyStep rs s) "Creative"
  == score s "Creative"
     + (2 # 10) * inject_Z (Z.of_nat (creativeResponses rs)).
Proof.
  revert s. induction rs as [|r rs IH]; intros s Hin.
  - unfold creativeResponses. simpl fold_left. simpl List.filter.
    simpl List.length. change (inject_Z (Z.of_nat 0)) with 0. lra.
  - simpl fold_left. rewrite IH by (by rewrite keys_surveyStep).
    rewrite creative_surveyStep by done.
    unfold creativeResponses. simpl List.filter.
    destruct (prefersCreative r); [|lra].
    simpl List.length. rewrite Nat2Z.inj_succ, <- Z.add_1_r, inject_Z_plus.
    change (inject_Z 1) with 1. lra.
Qed.

Ltac read_rule :=
  rewrite behaviourScores_rules;
  rewrite ?score_applyRule_other by done;
  rewrite score_applyRule_same
    by (rewrite ?keys_applyRule; simpl; tauto);
  rewrite ?score_applyRule_other by done.

(** The scores before the survey responses, trait by trait. *)
Lemma behaviour_by_trait events transcript :
  let b := behaviourScores events transcript in
  score b "Analytical"
    = (if mentions transcript "think" "analyze" then 0 + (4 # 10) else 0)
  /\ score b "Creative"
    = (if mentions transcript "creative" "imagine" then 0 + (4 # 10) else 0)
  /\ score b "Social"
    = (if mentions transcript "people" "team" then 0 + (4 # 10) else 0)
  /\ score b "Practical"
    = (if countAbove (eventCounts events) "click" 10
       then 0 + (3 # 10) else 0)
  /\ score b "Cautious"
    = (if countAbove (eventCounts events) "hover" 5
       then 0 + (2 # 10) else 0)
  /\ score b "Efficient"
    = (if countAbove (eventCounts events) "keypress" 20
       then 0 + (3 # 10) else 0)
  /\ score b "Thorough"
    = (if countAbove (eventCounts events) "scroll" 3
       then 0 + (2 # 10) else 0).
Proof.
  cbv zeta. repeat split; read_rule; reflexivity.
Qed.

Lemma clamp_bonus (fires : bool) (d : Q) :
  0 <= d -> d <= 1 -> clamp (if fires then 0 + d else 0) == bonus fires d.
Proof.
  intros H0 H1. unfold clamp, bonus. destruct fires.
  - rewrite Q.max_l by lra. rewrite Q.min_l by lra. lra.
  - reflexivity.
Qed.

Lemma score_analytical events transcript surveys :
  score (computeTraitScores events transcript surveys) "Analytical"
  == bonus (mentions transcript "think" "analyze") (4 # 10).
Proof.
  rewrite computeTraitScores_unfold, score_clamped, other_surveys by done.
  destruct (behaviour_by_trait events transcript) as (-> & _).
  apply clamp_bonus; lra.
Qed.

Lemma score_social events transcript surveys :
  score (computeTraitScores events transcript surveys) "Social"
  == bonus (mentions transcript "people" "team") (4 # 10).
Proof.
  rewrite computeTraitScores_unfold, score_clamped, other_surveys by done.
  destruct (behaviour_by_trait events transcript) as (_ & _ & -> & _).
  apply clamp_bonus; lra.
Qed.

Lemma score_practical events transcript surveys :
  score (computeTraitScores events transcript surveys) "Practical"
  == bonus (10 <? countType "click" events)%nat (3 # 10).
Proof.
  rewrite computeTraitScores_unfold, score_clamped, other_surveys by done.
  destruct (behaviour_by_trait events transcript) as (_ & _ & _ & -> & _).
  rewrite countAbove_count by done. apply clamp_bonus; lra.
Qed.

Lemma score_cautious events transcript surveys :
  score (computeTraitScores events transcript surveys) "Cautious"
  == bonus (5 <? countType "hover" events)%nat (2 # 10).
Proof.
  rewrite computeTraitScores_unfold, score_clamped, other_surveys by done.
  destruct (behaviour_by_trait events transcript)
    as (_ & _ & _ & _ & -> & _).
  rewrite countAbove_count by done. apply clamp_bonus; lra.
Qed.

Lemma score_efficient events transcript surveys :
  score (computeTraitScores events transcript surveys) "Efficient"
  == bonus (20 <? countType "keypress" events)%nat (3 # 10).
Proof.
  rewrite computeTraitScores_unfold, score_clamped, other_surveys by done.
  destruct (behaviour_by_trait events transcript)
    as (_ & _ & _ & _ & _ & -> & _).
  rewrite countAbove_count by done. apply clamp_bonus; lra.
Qed.

Lemma score_thorough events transcript surveys :
  score (computeTraitScores events transcript surveys) "Thorough"
  == bonus (3 <? countType "scroll" events)%nat (2 # 10).
Proof.
  rewrite computeTraitScores_unfold, score_clamped, other_surveys by done.
  destruct (behaviour_by_trait events transcript)
    as (_ & _ & _ & _ & _ & _ & ->).
  rewrite countAbove_count by done. apply clamp_bonus; lra.
Qed.

Lemma score_creative events transcript surveys :
  score (computeTraitScores events transcript surveys) "Creative"
  == clamp (bonus (mentions transcript "creative" "imagine") (4 # 10)
            + (2 # 10) * inject_Z (Z.of_nat (creativeResponses surveys))).
Proof.
  rewrite computeTraitScores_unfold, score_clamped.
  apply clamp_proper.
  rewrite creative_surveys
    by (rewrite keys_behaviourScores; simpl; tauto).
  destruct (behaviour_by_trait events transcript) as (_ & -> & _).
  unfold bonus. destruct (mentions transcript "creative" "imagine"); lra.
Qed.


End ClosedForm.

(** ** Scores of a growing run *)

Section Growth.
Import PersonaService.
Local Open Scope Q_scope.

Lemma prefix_app (n s s' : string) :
  String.prefix n s = true -> String.prefix n (s ++ s')%string = true.
Proof.
  revert s. induction n as [|c n IH]; intros s.
  - intros _. by destruct (s ++ s')%string.
  - destruct s as [|c' s]; simpl; [discriminate|].
    destruct (Ascii.ascii_dec c c'); [apply IH | discriminate].
Qed.

Lemma includes_app (s s' n : string) :
  JsString.includes s n = true -> JsString.includes (s ++ s')%string n = true.
Proof.
  induction s as [|c s IH]; simpl.
  - rewrite orb_false_r. intros H. destruct n; [|discriminate].
    by destruct s'.
  - intros H. apply orb_true_iff in H as [H|H]; apply orb_true_iff.
    + left. by apply (prefix_app n (String c s) s').
    + right. by apply IH.
Qed.

Lemma toLowerCase_app (s s' : string) :
  JsString.toLowerCase (s ++ s')%string
  = (JsString.toLowerCase s ++ JsString.toLowerCase s')%string.
Proof. induction s as [|c s IH]; simpl; [done|]. by rewrite IH. Qed.

Lemma mentions_app (t t' a b : string) :
  mentions t a b = true -> mentions (t ++ t')%string a b = true.
Proof.
  unfold mentions. rewrite toLowerCase_app. intros H.
  apply orb_true_iff in H as [H|H]; apply orb_true_iff;
    [left|right]; by apply includes_app.
Qed.

Lemma countType_app (k : string) (ev ev' : list (gmap string Js.JsVal)) :
  countType k (ev ++ ev') = (countType k ev + countType k ev')%nat.
Proof. unfold countType. by rewrite List.filter_app, List.length_app. Qed.

Lemma clamp_mono (x y : Q) : x <= y -> clamp x <= clamp y.
Proof.
  intros H. unfold clamp.
  apply Q.min_le_compat_r, Q.max_le_compat_r, H.
Qed.

Lemma bonus_mono (fires fires' : bool) (d : Q) :
  0 <= d -> (fires = true -> fires' = true) ->
  bonus fires d <= bonus fires' d.
Proof.
  intros Hd H. unfold bonus. destruct fires.
  - rewrite H by done. lra.
  - destruct fires'; lra.
Qed.

Lemma above_app (n : nat) (k : string) (ev ev' : list (gmap string Js.JsVal)) :
  (n <? countType k ev)%nat = true ->
  (n <? countType k (ev ++ ev'))%nat = true.
Proof. rewrite countType_app, !Nat.ltb_lt. lia. Qed.

Lemma responses_app (f : Run.SurveyResponse -> bool)
    (sv sv' : list Run.SurveyResponse) :
  inject_Z (Z.of_nat (List.length (List.filter f sv)))
  <= inject_Z (Z.of_nat (List.length (List.filter f (sv ++ sv')))).
Proof.
  rewrite <- Zle_Qle, List.filter_app, List.length_app. lia.
Qed.

(** X4. Growing a run never lowers a score: with more events, a longer
    transcript and more survey responses, each of the eight scores is at
    least what it was. *)
Theorem scores_never_drop
    (events events' : list (gmap string Js.JsVal))
    (transcript chunk : string)
    (surveys surveys' : list Run.SurveyResponse) :
  Forall (fun k =>
            score (computeTraitScores events transcript surveys) k
            <= score (computeTraitScores (events ++ events')
                        (transcript ++ chunk)%string (surveys ++ surveys'))
                     k)
         traitNames.
Proof.
  unfold traitNames. repeat constructor.
  - rewrite !score_analytical. apply bonus_mono; [lra|apply mentions_app].
  - rewrite !score_creative. apply clamp_mono.
    pose proof (responses_app prefersCreative surveys surveys') as Hr.
    fold (creativeResponses surveys) in Hr.
    fold (creativeResponses (surveys ++ surveys')) in Hr.
    pose proof (bonus_mono _ _ (4 # 10) ltac:(lra)
                  (mentions_app transcript chunk "creative" "imagine")).
    lra.
  - rewrite !score_social. apply bonus_mono; [lra|apply mentions_app].
  - rewrite !score_practical. apply bonus_mono; [lra|apply above_app].
  - rewrite !confident_score. apply clamp_mono.
    pose proof (responses_app confidenceHigh surveys surveys') as Hr.
    fold (matchingResponses surveys) in Hr.
    fold (matchingResponses (surveys ++ surveys')) in Hr.
    pose proof (bonus_mono _ _ (3 # 10) ltac:(lra)
                  (mentions_app transcript chunk "confident" "sure")) as Hb.
    unfold bonus, mentions in Hb. unfold soundsConfident. lra.
  - rewrite !score_cautious. apply bonus_mono; [lra|apply above_app].
  - rewrite !score_efficient. apply bonus_mono; [lra|apply above_app].
  - rewrite !score_thorough. apply bonus_mono; [lra|apply above_app].
Qed.

End Growth.

(** ** Creating, updating and deleting personas *)

Section StoreRoundTrips.
Import PersonaModel.

Lemma find_app {A : Type} (f : A -> bool) (l l' : list A) :
  Js.find f (l ++ l')
  = match Js.find f l with
    | Some x => Some x
    | None => Js.find f l'
    end.
Proof.
  unfold Js.find. induction l as [|x r IH]; simpl; [done|].
  by destruct (f x).
Qed.

Lemma find_none {A : Type} (f : A -> bool) (l : list A) :
  Forall (fun x => f x = false) l -> Js.find f l = None.
Proof.
  unfold Js.find. induction 1 as [|x r Hx _ IH]; simpl; [done|].
  by rewrite Hx.
Qed.

(** In a well numbered store no persona carries the id that [create]
    hands out next. *)
Lemma next_id_unused (st : PersonaStore) :
  wellNumbered st ->
  Forall (fun p => String.eqb (id p) (JsString.natToString (nextId st))
                   = false)
         (personas st).
Proof.
  intros (_ & _ & Hb). eapply Forall_impl; [exact Hb|]. simpl.
  intros p [Hp Hr]. apply String.eqb_neq. rewrite Hp. intros Heq.
  apply natToString_inj in Heq. lia.
Qed.

Lemma reached_wellNumbered (ops : list StoreOp) :
  wellNumbered (fst (storeRun emptyStore ops)).
Proof.
  destruct (storeRun_numbers ops emptyStore) as (_ & _ & Hw).
  apply Hw, wellNumbered_empty.
Qed.

(** X5. In a store reached from the empty one by any calls, the persona
    [create] returns is found under its id afterwards; that id was not in
    use before; the store has grown by exactly that persona, at the end;
    and every other id resolves as it did before. *)
Theorem create_then_lookup (ops : list StoreOp) (data : PersonaData)
    (now1 now2 : Z) :
  let st := fst (storeRun emptyStore ops) in
  let st' := fst (create st data now1 now2) in
  let p := snd (create st data now1 now2) in
  getById st' (id p) = Some p
  /\ getById st (id p) = None
  /\ personas st' = personas st ++ [p]
  /\ (forall i, i <> id p -> getById st' i = getById st i).
Proof.
  intros st st' p.
  pose proof (next_id_unused st (reached_wellNumbered ops)) as Hfree.
  assert (getById st (id p) = None) as Hnone by by apply find_none.
  split; [|split; [done|split; [done|]]].
  - unfold getById in *. subst st'. simpl personas.
    rewrite find_app, Hnone. unfold Js.find. simpl.
    by rewrite String.eqb_refl.
  - intros i Hi. unfold getById. subst st'. simpl personas.
    rewrite find_app. destruct (Js.find _ (personas st)); [done|].
    unfold Js.find. simpl.
    destruct (String.eqb_spec (JsString.natToString (nextId st)) i)
      as [Heq|]; [|done].
    by destruct Hi.
Qed.

Lemma find_removeFirst_other (i j : string) (l : list Persona) :
  j <> i ->
  Js.find (fun p => String.eqb (id p) j) (removeFirst i l)
  = Js.find (fun p => String.eqb (id p) j) l.
Proof.
  intros Hne. unfold Js.find. induction l as [|p r IH]; simpl; [done|].
  destruct (String.eqb_spec (id p) i) as [Hi|Hi].
  - destruct (String.eqb_spec (id p) j); [congruence|done].
  - simpl. by rewrite IH.
Qed.

Lemma find_removeFirst_same (i : string) (l : list Persona) :
  NoDup (List.map id l) ->
  Js.find (fun p => String.eqb (id p) i) (removeFirst i l) = None.
Proof.
  unfold Js.find. induction l as [|p r IH]; simpl; [done|].
  rewrite NoDup_cons. intros [Hp Hr].
  destruct (String.eqb_spec (id p) i) as [Hi|Hi].
  - apply find_none, List.Forall_forall. intros q Hq.
    apply String.eqb_neq. intros Heq. apply Hp.
    apply list_elem_of_In, List.in_map_iff. exists q. split; [congruence|done].
  - simpl. apply String.eqb_neq in Hi as ->. by apply IH.
Qed.

Lemma length_removeFirst (i : string) (l : list Persona) :
  List.length (removeFirst i l)
  + match Js.find (fun p => String.eqb (id p) i) l with
    | Some _ => 1
    | None => 0
    end
  = List.length l.
Proof.
  unfold Js.find. induction l as [|p r IH]; simpl; [done|].
  destruct (String.eqb (id p) i); simpl; lia.
Qed.

(** X6. In a store reached from the empty one, [delete] answers true
    exactly when the id is stored; afterwards the id is gone, every other
    id resolves as before, the store is shorter by one exactly when the
    answer was true, and the counter is untouched, so the id is not handed
    out again. *)
Theorem delete_then_lookup (ops : list StoreOp) (i : string) :
  let st := fst (storeRun emptyStore ops) in
  let st' := fst (delete st i) in
  snd (delete st i) = isStored st i
  /\ getById st' i = None
  /\ (forall j, j <> i -> getById st' j = getById st j)
  /\ List.length (personas st') + (if isStored st i then 1 else 0)
     = List.length (personas st)
  /\ nextId st' = nextId st.
Proof.
  intros st st'.
  pose proof (wellNumbered_NoDup st (reached_wellNumbered ops)) as Hnd.
  pose proof (length_removeFirst i (personas st)) as Hl.
  subst st'. unfold delete, isStored, getById.
  destruct (Js.find (fun p => String.eqb (id p) i) (personas st))
    as [found|] eqn:Hf; simpl.
  - split; [done|]. split; [by apply find_removeFirst_same|].
    split; [intros j Hj; by apply find_removeFirst_other|]. by split.
  - split; [done|]. split; [done|]. split; [done|]. split; [lia|done].
Qed.

Lemma find_updateFirst_same (i : string) (u : PersonaUpdates) (now : Z)
    (l : list Persona) :
  Js.find (fun p => String.eqb (id p) i) (updateFirst i u now l)
  = (fun p => applyUpdates p u now)
      <$> Js.find (fun p => String.eqb (id p) i) l.
Proof.
  unfold Js.find. induction l as [|p r IH]; simpl; [done|].
  destruct (String.eqb (id p) i) eqn:E; simpl; by rewrite E.
Qed.

Lemma find_updateFirst_other (i j : string) (u : PersonaUpdates) (now : Z)
    (l : list Persona) :
  j <> i ->
  Js.find (fun p => String.eqb (id p) j) (updateFirst i u now l)
  = Js.find (fun p => String.eqb (id p) j) l.
Proof.
  intros Hne. unfold Js.find. induction l as [|p r IH]; simpl; [done|].
  destruct (String.eqb_spec (id p) i) as [Hi|Hi]; simpl.
  - destruct (String.eqb_spec (id p) j); [congruence|done].
  - by rewrite IH.
Qed.

Lemma ids_updateFirst (i : string) (u : PersonaUpdates) (now : Z)
    (l : list Persona) :
  List.map id (updateFirst i u now l) = List.map id l.
Proof.
  induction l as [|p r IH]; simpl; [done|].
  destruct (String.eqb (id p) i); simpl; by rewrite ?IH.
Qed.

(** X7. [update] on any store: for an id that is not stored it returns
    null and changes nothing; otherwise it returns the stored persona with
    the given fields replaced, the same id and creation time and [now] as
    its update time, the id resolves to that persona afterwards, the ids
    and their order are as before, and every other id resolves as
    before. *)
Theorem update_then_lookup (st : PersonaStore) (i : string)
    (u : PersonaUpdates) (now : Z) :
  match snd (update st i u now) with
  | None => getById st i = None /\ fst (update st i u now) = st
  | Some p =>
      exists old,
        getById st i = Some old
        /\ p = applyUpdates old u now
        /\ id p = i /\ createdAt p = createdAt old /\ updatedAt p = now
        /\ getById (fst (update st i u now)) i = Some p
        /\ List.map id (personas (fst (update st i u now)))
           = List.map id (personas st)
        /\ nextId (fst (update st i u now)) = nextId st
        /\ (forall j, j <> i ->
              getById (fst (update st i u now)) j = getById st j)
  end.
Proof.
  unfold update, getById.
  pose proof (find_split (fun p => String.eqb (id p) i) (personas st)) as Hs.
  destruct (Js.find (fun p => String.eqb (id p) i) (personas st))
    as [old|] eqn:Hf; simpl; [|done].
  destruct Hs as [Hid _]. apply String.eqb_eq in Hid.
  exists old. repeat split; try done.
  - by rewrite find_updateFirst_same, Hf.
  - apply ids_updateFirst.
  - intros j Hj. by apply find_updateFirst_other.
Qed.

End StoreRoundTrips.

(** ** Reading personas over HTTP *)

Section PersonaReads.
Import PersonaModel.

(** X8. [GET /api/personas/:id] answers 404 exactly when no stored persona
    has the id, 403 when the persona found under the id belongs to another
    user, and otherwise returns a stored persona that has the requested id
    and belongs to the requesting user: it never returns a persona of
    someone else. *)
Theorem persona_by_id_access (st : PersonaStore) (user i : string) :
  match PersonaRoutes.getPersonaById st user i with
  | PersonaRoutes.NotFound => Forall (fun p => id p <> i) (personas st)
  | PersonaRoutes.Forbidden =>
      exists p, getById st i = Some p /\ In p (personas st)
                /\ userId p <> user
  | PersonaRoutes.One p =>
      In p (personas st) /\ id p = i /\ userId p = user
  | _ => False
  end.
Proof.
  unfold PersonaRoutes.getPersonaById, getById.
  pose proof (find_split (fun p => String.eqb (id p) i) (personas st)) as Hs.
  destruct (Js.find _ (personas st)) as [p|].
  - destruct Hs as (Hid & l1 & l2 & Hl & _). apply String.eqb_eq in Hid.
    assert (In p (personas st)) as Hin by (rewrite Hl; apply List.in_elt).
    destruct (String.eqb_spec (userId p) user) as [Hu|Hu]; simpl.
    + done.
    + by exists p.
  - eapply Forall_impl; [exact Hs|]. intros q. apply String.eqb_neq.
Qed.



End PersonaReads.

(** ** What the run routes store *)

Section RunLog.
Import TestsRoutes.

Lemma mapGet_mapSet {V : Type} (m : Js.JsMap V) (k r : string) (v : V) :
  Js.mapGet (Js.mapSet m k v) r
  = if String.eqb k r then Some v else Js.mapGet m r.
Proof.
  unfold Js.mapGet, Js.mapSet. simpl.
  destruct (String.eqb_spec k r) as [->|Hne].
  - apply lookup_insert_eq.
  - by apply lookup_insert_ne.
Qed.

(** Unfolds one request down to the lookups it makes. *)
Ltac one_request :=
  unfold handle, logTestRunEvent, updateTestRunTranscript,
    handleTestRunAudioUpload, finalizeTestRun, getOrCreate, freshRun;
  repeat match goal with
         | |- context [String.eqb ?a ""] =>
             destruct (String.eqb a "") eqn:?; simpl
         | f : option nat |- _ => destruct f; simpl
         | |- context [PersonaService.buildPersona ?m ?s ?e ?r] =>
             destruct (PersonaService.buildPersona m s e r) as [? []]; simpl
         end.

Lemma owner_step (b : Backend) (req : Request) (r : string) :
  ownerOf (fst (handle b req)) r
  = match ownerOf b r with
    | Some u => Some u
    | None => writerFor r req
    end.
Proof.
  unfold ownerOf, runOf.
  destruct req as [u run e t d now|u run c now|u run f now|run now env];
    one_request; rewrite ?andb_false_r; simpl;
    try (by destruct (Js.mapGet (routeRuns b) r));
    try (rewrite mapGet_mapSet;
         destruct (String.eqb_spec run r) as [->|Hne]; simpl;
         by destruct (Js.mapGet (routeRuns b) r)).
  destruct (Js.mapGet (routeRuns b) run) as [testRun|] eqn:Hrun; simpl;
    [|by destruct (Js.mapGet (routeRuns b) r)].
  one_request; rewrite mapGet_mapSet;
    destruct (String.eqb_spec run r) as [->|Hne]; simpl;
    rewrite ?Hrun; simpl; try done;
    by destruct (Js.mapGet (routeRuns b) r).
Qed.

Lemma string_app_nil (s : string) : (s ++ "")%string = s.
Proof.
  induction s as [|c s IH]; [done|].
  change (String c (s ++ "")%string = String c s). by rewrite IH.
Qed.

Lemma string_app_assoc (a b c : string) :
  ((a ++ b) ++ c)%string = (a ++ (b ++ c))%string.
Proof.
  induction a as [|x a IH]; [done|].
  change (String x ((a ++ b) ++ c)%string = String x (a ++ (b ++ c))%string).
  by rewrite IH.
Qed.

(** Solves a step lemma once the reading is unfolded. *)
Ltac close_step b r :=
  destruct (Js.mapGet (routeRuns b) r); simpl;
  rewrite ?string_app_nil, ?List.app_nil_r; done.

Ltac step_cases b req r :=
  destruct req as [u run e t d now|u run c now|u run f now|run now env];
    one_request; rewrite ?andb_false_r, ?andb_true_r; simpl;
    try (close_step b r);
    try (rewrite mapGet_mapSet;
         destruct (String.eqb_spec run r) as [->|Hne]; simpl;
         close_step b r);
    try (let Hrun := fresh "Hrun" in
         destruct (Js.mapGet (routeRuns b) run) as [testRun|] eqn:Hrun;
         simpl; [|close_step b r];
         one_request; rewrite mapGet_mapSet;
         destruct (String.eqb_spec run r) as [->|Hne]; simpl;
         rewrite ?Hrun; simpl; rewrite ?string_app_nil, ?List.app_nil_r;
         try done; close_step b r).

Lemma transcript_step (b : Backend) (req : Request) (r : string) :
  transcriptOf (fst (handle b req)) r
  = (transcriptOf b r ++ chunkFor r req)%string.
Proof.
  unfold transcriptOf, runOf.
  step_cases b req r.
  match goal with
  | H : String.eqb c "" = true |- _ => apply String.eqb_eq in H as ->
  end.
  destruct (String.eqb run r); by rewrite string_app_nil.
Qed.

Lemma eventObject_name (eventName : string) (timestamp : Z)
    (data : Js.JsVal) :
  Js.getProp (eventObject eventName timestamp data) "name"
  = Js.JStr eventName.
Proof. unfold Js.getProp, eventObject. by simplify_map_eq. Qed.

Lemma eventNames_step (b : Backend) (req : Request) (r : string) :
  eventNamesOf (fst (handle b req)) r
  = eventNamesOf b r ++ List.map Js.JStr (eventFor r req).
Proof.
  unfold eventNamesOf, runOf.
  step_cases b req r.
  rewrite mapGet_mapSet.
  destruct (String.eqb_spec run r) as [->|Hne]; simpl; [|close_step b r].
  destruct (Js.mapGet (routeRuns b) r); simpl;
    rewrite ?List.map_app; simpl; by rewrite eventObject_name.
Qed.

Lemma finalized_step (b : Backend) (req : Request) (r : string) :
  isFinalized b r = true -> isFinalized (fst (handle b req)) r = true.
Proof.
  unfold isFinalized, runOf.
  step_cases b req r.
Qed.

Lemma serve_cons (b : Backend) (req : Request) (rs : list Request) :
  serve b (req :: rs) = serve (fst (handle b req)) rs.
Proof. reflexivity. Qed.

Lemma owner_serve (rs : list Request) (b : Backend) (r : string) :
  ownerOf (serve b rs) r
  = match ownerOf b r with
    | Some u => Some u
    | None => firstWriter r rs
    end.
Proof.
  revert b. induction rs as [|req rs IH]; intros b.
  - simpl. by destruct (ownerOf b r).
  - rewrite serve_cons, IH, owner_step. unfold firstWriter. simpl.
    destruct (ownerOf b r); [done|]. by destruct (writerFor r req).
Qed.

Lemma transcript_serve (rs : list Request) (b : Backend) (r : string) :
  transcriptOf (serve b rs) r
  = (transcriptOf b r ++ transcriptLog r rs)%string.
Proof.
  revert b. induction rs as [|req rs IH]; intros b.
  - simpl. by rewrite string_app_nil.
  - rewrite serve_cons, IH, transcript_step. simpl.
    apply string_app_assoc.
Qed.

Lemma eventNames_serve (rs : list Request) (b : Backend) (r : string) :
  eventNamesOf (serve b rs) r
  = eventNamesOf b r ++ List.map Js.JStr (eventLog r rs).
Proof.
  revert b. induction rs as [|req rs IH]; intros b.
  - simpl. by rewrite List.app_nil_r.
  - rewrite serve_cons, IH, eventNames_step. unfold eventLog. simpl.
    by rewrite List.map_app, List.app_assoc.
Qed.

(** X10. A stored run is the log of the accepted writes to its id. After
    any sequence of requests to a fresh backend, a run exists under an id
    exactly when a write to that id was accepted, and it belongs to the
    user of the first such write, whoever wrote later; its transcript is
    the concatenation, in order, of the chunks sent for it; and its events
    carry, in order, the names of the events logged for it. *)
Theorem run_is_log_of_writes (rs : list Request) (r : string) :
  ownerOf (serve initial rs) r = firstWriter r rs
  /\ transcriptOf (serve initial rs) r = transcriptLog r rs
  /\ eventNamesOf (serve initial rs) r = List.map Js.JStr (eventLog r rs).
Proof.
  split; [|split].
  - by rewrite owner_serve.
  - by rewrite transcript_serve.
  - by rewrite eventNames_serve.
Qed.

(** X11. Finalization is permanent: a run that is marked finalized stays
    marked under every later sequence of requests, be they writes to the
    run or further finalize requests. *)
Theorem finalized_stays (b : Backend) (rs : list Request) (r : string) :
  isFinalized b r = true -> isFinalized (serve b rs) r = true.
Proof.
  revert b. induction rs as [|req rs IH]; intros b H; [done|].
  rewrite serve_cons. by apply IH, finalized_step.
Qed.

Lemma finalized_stays_witness :
  isFinalized afterFinalize "run-1" = true
  /\ isFinalized (serve afterFinalize session) "run-1" = true.
Proof.
  split; [vm_compute; reflexivity|].
  apply (finalized_stays afterFinalize session "run-1").
  vm_compute. reflexivity.
Defined.

(** X12. A request that is answered 400 or 404 changes nothing: the run
    map, the service's map and the persona store are what they were. *)
Theorem rejected_request_changes_nothing (b : Backend) (req : Request) :
  status (snd (handle b req)) = 400 \/ status (snd (handle b req)) = 404 ->
  fst (handle b req) = b.
Proof.
  destruct req as [u run e t d now|u run c now|u run f now|run now env];
    one_request; try done;
    try (intros [H|H]; discriminate H).
  destruct (Js.mapGet (routeRuns b) run); [|done].
  one_request; intros [H|H]; discriminate H.
Qed.

Lemma rejected_request_changes_nothing_witness :
  status (snd (handle afterSession (Finalize "run-9" 3000 env1))) = 404
  /\ fst (handle afterSession (Finalize "run-9" 3000 env1)) = afterSession.
Proof.
  split; [vm_compute; reflexivity|].
  apply (rejected_request_changes_nothing afterSession
           (Finalize "run-9" 3000 env1)).
  right. vm_compute. reflexivity.
Defined.

(** X13. After any sequence of requests to a fresh backend, a finalize
    request for a run that exists is answered 500 and stores no persona,
    and yet the run is left marked finalized, with the time of the request
    as its end time and everything else as it was. *)
Theorem finalize_marks_and_fails (rs : list Request) (r : string) (now : Z)
    (env : PersonaService.Env) (run : Run.TestRun) :
  r <> ""%string ->
  runOf (serve initial rs) r = Some run ->
  snd (finalizeTestRun (serve initial rs) r now env) = failure 500
  /\ personaStore (fst (finalizeTestRun (serve initial rs) r now env))
     = PersonaModel.emptyStore
  /\ runOf (fst (finalizeTestRun (serve initial rs) r now env)) r
     = Some (markFinalized run now).
Proof.
  intros Hne Hrun. unfold runOf in *.
  destruct (idle_serve rs initial idle_initial) as [Hs Hp].
  unfold finalizeTestRun.
  apply String.eqb_neq in Hne as ->. rewrite Hrun.
  rewrite buildPersona_missing
    by (rewrite mapGet_setTestRuns; unfold Js.mapGet; by rewrite Hs).
  simpl. rewrite Hp. split; [done|]. split; [done|].
  rewrite mapGet_mapSet. by rewrite String.eqb_refl.
Qed.

Lemma finalize_marks_and_fails_witness :
  "run-1"%string <> ""%string
  /\ runOf (serve initial session) "run-1" = runOf afterSession "run-1"
  /\ snd (finalizeTestRun (serve initial session) "run-1" 3000 env1)
     = failure 500.
Proof.
  split; [discriminate|]. split; [reflexivity|].
  destruct (runOf afterSession "run-1") as [run|] eqn:Hrun.
  - apply (finalize_marks_and_fails session "run-1" 3000 env1 run);
      [discriminate | exact Hrun].
  - vm_compute in Hrun. discriminate Hrun.
Defined.

End RunLog.

(** ** The test instance store *)

Section Instances.
Import TestInstanceModel.

Lemma Forall_changeFirst (P : TestInstance -> Prop) (i : string)
    (f : TestInstance -> TestInstance) (l : list TestInstance) :
  (forall x, P x -> P (f x)) ->
  Forall P l -> Forall P (changeFirst i f l).
Proof.
  intros Hf. induction 1 as [|x r Hx Hr IH]; simpl; [constructor|].
  destruct (String.eqb (id x) i); constructor; auto.
Qed.

Lemma Forall_removeFirst (P : TestInstance -> Prop) (i : string)
    (l : list TestInstance) :
  Forall P l -> Forall P (removeFirst i l).
Proof.
  induction 1 as [|x r Hx Hr IH]; simpl; [constructor|].
  destruct (String.eqb (id x) i); [done|by constructor].
Qed.

Lemma stamped_withStatus (x : TestInstance) (s : Status) (now1 now2 : Z) :
  stamped (withStatus x s now1 now2).
Proof.
  unfold stamped, withStatus. simpl. split; intros ->; simpl.
  - by destruct (startedAt x).
  - by destruct (completedAt x).
Qed.

Lemma stamped_step (st : TestInstanceStore) (op : InstanceOp) :
  Forall stamped (instances st) ->
  Forall stamped (instances (instanceStep st op)).
Proof.
  intros H. destruct op as [t n d now1 now2|i s now1 now2|i sc mx now|i];
    simpl.
  - apply Forall_app. split; [done|]. repeat constructor; simpl; done.
  - unfold updateStatus. destruct (Js.find _ _); [|done]. simpl.
    apply Forall_changeFirst; [|done].
    intros x _. apply stamped_withStatus.
  - unfold updateScore. destruct (Js.find _ _); [|done]. simpl.
    apply Forall_changeFirst; [|done]. intros x Hx. exact Hx.
  - unfold delete. destruct (Js.find _ _); [|done]. simpl.
    by apply Forall_removeFirst.
Qed.

(** X14. Whatever calls are made on the test instance store, starting
    from the empty one, every instance whose status is active has a start
    time and every instance whose status is completed has a completion
    time. *)
Theorem instances_are_stamped (ops : list InstanceOp) :
  Forall stamped (instances (instanceRun emptyStore ops)).
Proof.
  unfold instanceRun.
  assert (Forall stamped (instances emptyStore)) as H by constructor.
  revert H. generalize emptyStore.
  induction ops as [|op ops IH]; intros st H; [done|].
  simpl. by apply IH, stamped_step.
Qed.

Lemma keepsStamps_changeFirst (i : string)
    (f : TestInstance -> TestInstance) (l : list TestInstance) :
  (forall x, keepsStamps x (f x)) ->
  (forall x, keepsStamps x x) ->
  Forall2 keepsStamps l (changeFirst i f l).
Proof.
  intros Hf Hrefl. induction l as [|x r IH]; simpl; [constructor|].
  destruct (String.eqb (id x) i); constructor; auto.
  clear IH. induction r; constructor; auto.
Qed.

(** X15. [updateStatus] stamps once: whatever the new status, every
    instance keeps its place, its id, template, creation time and score,
    and a start or completion time that was already set stays what it
    was. An id that is not stored gives null and changes nothing. *)
Theorem status_update_keeps_stamps (st : TestInstanceStore) (i : string)
    (s : Status) (now1 now2 : Z) :
  Forall2 keepsStamps (instances st)
          (instances (fst (updateStatus st i s now1 now2)))
  /\ nextId (fst (updateStatus st i s now1 now2)) = nextId st
  /\ match snd (updateStatus st i s now1 now2) with
     | Some x => id x = i /\ status x = s /\ updatedAt x = now1
                 /\ getById (fst (updateStatus st i s now1 now2)) i = Some x
     | None => getById st i = None
               /\ fst (updateStatus st i s now1 now2) = st
     end.
Proof.
  assert (forall x, keepsStamps x x) as Hrefl by (intros x; by repeat split).
  assert (forall x, keepsStamps x (withStatus x s now1 now2)) as Hkeep.
  { intros x. unfold keepsStamps, withStatus. simpl.
    split; [done|]. split; [done|]. split; [done|]. split; [done|].
    split; [done|]. split; intros t Ht; rewrite Ht.
    - by destruct (isActive s).
    - by destruct (isCompleted s). }
  unfold updateStatus, getById.
  pose proof (find_split (fun x => String.eqb (id x) i) (instances st)) as Hs.
  destruct (Js.find (fun x => String.eqb (id x) i) (instances st))
    as [x|] eqn:Hf; simpl.
  - split; [by apply keepsStamps_changeFirst|]. split; [done|].
    destruct Hs as (Hid & l1 & l2 & Hl & H1). apply String.eqb_eq in Hid.
    repeat split; try done.
    clear Hl H1. revert Hf. unfold Js.find.
    induction (instances st) as [|y r IH]; simpl; [done|].
    destruct (String.eqb (id y) i) eqn:E; simpl.
    + intros [= ->]. by rewrite E.
    + rewrite E. apply IH.
  - split; [|done].
    clear Hf Hs. induction (instances st); constructor; auto.
Qed.

End Instances.

(** ** Scores stored through the test routes *)

Section InstanceScores.
Import TestInstanceModel.
Local Open Scope Q_scope.

Lemma scoreInRange_withStatus (x : TestInstance) (s : Status)
    (now1 now2 : Z) :
  scoreInRange x -> scoreInRange (withStatus x s now1 now2).
Proof. done. Qed.

Lemma scoreInRange_updateStatus (st : TestInstanceStore) (i : string)
    (s : Status) (now1 now2 : Z) :
  Forall scoreInRange (instances st) ->
  Forall scoreInRange (instances (fst (updateStatus st i s now1 now2))).
Proof.
  intros H. unfold updateStatus. destruct (Js.find _ _); [|done]. simpl.
  apply Forall_changeFirst; [|done].
  intros x. apply scoreInRange_withStatus.
Qed.

Lemma scoreInRange_handle (st : TestInstanceStore)
    (req : InstanceRoutes.Request) :
  Forall scoreInRange (instances st) ->
  Forall scoreInRange (instances (fst (InstanceRoutes.handle st req))).
Proof.
  intros H.
  destruct req as [t now1 now2|i s now1 now2|i sc mx now|t ty bad now1 now2];
    simpl.
  - unfold InstanceRoutes.createTest.
    destruct (String.eqb t ""); [done|].
    destruct (TestTemplateModel.getById t); [|done]. simpl.
    apply Forall_app. split; [done|]. by repeat constructor.
  - unfold InstanceRoutes.updateTestStatus.
    destruct (String.eqb s ""); [done|].
    destruct (InstanceRoutes.parseStatus s) as [s'|]; [|done].
    pose proof (scoreInRange_updateStatus st i s' now1 now2 H) as H'.
    by destruct (updateStatus st i s' now1 now2) as [st' []].
  - unfold InstanceRoutes.updateTestScore.
    destruct sc as [sc|]; [|done]. destruct mx as [mx|]; [|done].
    destruct (Qlt_le_dec sc 0) as [|Hlo]; [done|].
    destruct (Qlt_le_dec 0 mx) as [Hpos|]; [|done].
    destruct (Qlt_le_dec mx sc) as [|Hhi]; [done|].
    unfold updateScore. destruct (Js.find _ _); [|done]. simpl.
    apply Forall_changeFirst; [|done].
    intros x _. unfold scoreInRange. simpl. done.
  - unfold InstanceRoutes.submitTestResponses.
    destruct (_ || _); [done|].
    destruct (TestTemplateModel.getById t); [|done].
    destruct bad; [done|].
    destruct (Js.find _ _); [|done]. simpl.
    by apply scoreInRange_updateStatus.
Qed.

(** X16. Whatever requests the test routes serve, starting from the empty
    store, an instance either has no score or has a score and a maximum
    with 0 <= score <= maximum and maximum > 0: the score route stores
    nothing else, and no other route touches a score. *)
Theorem stored_scores_in_range (rs : list InstanceRoutes.Request) :
  Forall scoreInRange (instances (InstanceRoutes.serve emptyStore rs)).
Proof.
  unfold InstanceRoutes.serve.
  assert (Forall scoreInRange (instances emptyStore)) as H by constructor.
  revert H. generalize emptyStore.
  induction rs as [|req rs IH]; intros st H; [done|].
  simpl. by apply IH, scoreInRange_handle.
Qed.

End InstanceScores.

(** ** Statistics of the persona store *)

Section PersonaStats.
Import PersonaModel.
Local Open Scope Q_scope.







End PersonaStats.
